(** * Request handlers of the retrieval-augmented chat service

    A shallow embedding of [src/main.py] (the FastAPI handlers [chat],
    [upload_and_index_document], [list_documents], [delete_document]) and of
    [get_rag_chain] from [src/langchain_utils.py].

    The handlers are thin orchestration over three collaborators: the
    relational log store ([src.db_utils]), the vector store
    ([src.chroma_utils]) and the answer-generating chain.  Those modules, and
    [src.pydantic_models], are outside the verified sources: the handlers are
    therefore written against an interface [Env] whose operations are
    arbitrary state transformers that may return or raise, and a separate
    instance [SpecStores.env] follows the prose specification.

    Python features are modelled as follows.
    - Strings are byte strings ([string]); [str.lower] is modelled on ASCII
      letters, which is all the extension check can observe.
    - Exceptions are values of [Exn]; a computation [M A] maps a world to an
      outcome (returned value or raised exception), the world it leaves
      behind, and the list of collaborator calls it made, each with its
      result.  State changes made before an exception is raised persist, as
      they do in Python. *)

From Stdlib Require Import ZArith String Ascii List.
From stdpp Require Import gmap strings list pretty.

Open Scope Z_scope.

(** ** Python string and path primitives *)

Module Py.

(** [str.lower] restricted to ASCII letters. *)
Definition lower_ascii (c : ascii) : ascii :=
  let n := N_of_ascii c in
  if (65 <=? n)%N && (n <=? 90)%N then ascii_of_N (n + 32) else c.

Fixpoint lower (s : string) : string :=
  match s with
  | EmptyString => EmptyString
  | String c s' => String (lower_ascii c) (lower s')
  end.

(** [s.rfind(c)] for a one-character [c]: index of the last occurrence,
    [-1] when there is none. *)
Fixpoint rfind_from (c : ascii) (s : string) (i found : Z) : Z :=
  match s with
  | EmptyString => found
  | String a s' => rfind_from c s' (i + 1) (if Ascii.eqb a c then i else found)
  end.

Definition rfind (s : string) (c : ascii) : Z := rfind_from c s 0 (-1).

(** [s[i:j]], [s[:j]] and [s[i:]] for non-negative indices. *)
Definition slice (s : string) (i j : Z) : string :=
  String.substring (Z.to_nat i) (Z.to_nat (j - i)) s.

Definition slice_to (s : string) (j : Z) : string := slice s 0 j.

Definition slice_from (s : string) (i : Z) : string :=
  String.substring (Z.to_nat i) (String.length s) s.

(** [sep.join(l)]. *)
Fixpoint join (sep : string) (l : list string) : string :=
  match l with
  | [] => ""
  | [x] => x
  | x :: rest => x +:+ sep +:+ join sep rest
  end.

(** Truth value of a string: non-empty. *)
Definition truthy (s : string) : bool :=
  match s with EmptyString => false | _ => true end.

(** [x in l] for a list of strings. *)
Definition contains (l : list string) (x : string) : bool :=
  existsb (String.eqb x) l.

(** The [while] loop of [genericpath._splitext], which skips the leading
    dots of the last path component.  It runs at most
    [dotIndex - filenameIndex] times, which is the fuel given by
    [_splitext]. *)
Fixpoint splitext_scan (fuel : nat) (p : string) (filenameIndex dotIndex : Z)
  : option (string * string) :=
  match fuel with
  | O => None
  | S fuel' =>
      if filenameIndex <? dotIndex then
        if negb (String.eqb (slice p filenameIndex (filenameIndex + 1)) ".")
        then Some (slice_to p dotIndex, slice_from p dotIndex)
        else splitext_scan fuel' p (filenameIndex + 1) dotIndex
      else None
  end.

(** [os.path.splitext] of [posixpath]: separator ["/"], no alternative
    separator, extension separator ["."]. *)
Definition splitext (p : string) : string * string :=
  let sepIndex := rfind p "/"%char in
  let dotIndex := rfind p "."%char in
  let split :=
    if dotIndex >? sepIndex
    then splitext_scan (Z.to_nat (dotIndex - (sepIndex + 1))) p (sepIndex + 1) dotIndex
    else None in
  match split with
  | Some r => r
  | None => (p, "")
  end.

Definition startswith (s : string) (c : ascii) : bool :=
  match s with String a _ => Ascii.eqb a c | EmptyString => false end.

Fixpoint endswith (s : string) (c : ascii) : bool :=
  match s with
  | EmptyString => false
  | String a EmptyString => Ascii.eqb a c
  | String _ s' => endswith s' c
  end.

(** [os.path.join(a, b)] of [posixpath] for two components. *)
Definition path_join (a b : string) : string :=
  if startswith b "/"%char then b
  else if negb (truthy a) || endswith a "/"%char then a +:+ b
  else a +:+ "/" +:+ b.

End Py.

(** ** Exceptions and outcomes *)

Inductive Exn : Type :=
| HTTPException (status_code : Z) (detail : string)
| Exception (message : string).

(** [str(e)]; for [HTTPException] it is ["<status_code>: <detail>"]. *)
Definition str_exn (e : Exn) : string :=
  match e with
  | HTTPException c d => pretty c +:+ ": " +:+ d
  | Exception m => m
  end.

(** [str(x)] for a variable holding an exception or [None]. *)
Definition str_opt_exn (o : option Exn) : string :=
  match o with
  | Some e => str_exn e
  | None => "None"
  end.

Inductive Outcome (A : Type) : Type :=
| Return (a : A)
| Raise (e : Exn).
Arguments Return {A} a.
Arguments Raise {A} e.

(** ** Data model *)

(** A row of the document table. *)
Record DocumentRecord := mkDocumentRecord {
  doc_id : Z;
  doc_filename : string;
  doc_upload_timestamp : Z
}.

(** A row of the chat log. *)
Record ChatLogEntry := mkChatLogEntry {
  log_session_id : string;
  log_question : string;
  log_answer : string;
  log_model_name : string;
  log_timestamp : Z
}.

(** One prior turn of a session, as handed to the chain. *)
Record Turn := mkTurn {
  turn_question : string;
  turn_answer : string
}.

(** What [rag_chain.invoke] returns: a [dict] (of which the handler reads
    the keys ["answer"] and ["output_text"]; a missing key and a [None] value
    are both [None] here) or any other object.  [repr] is [str(response)]. *)
Inductive Response : Type :=
| RespDict (answer output_text : option string) (repr : string)
| RespOther (repr : string).

Definition str_response (r : Response) : string :=
  match r with
  | RespDict _ _ s => s
  | RespOther s => s
  end.

(** Request and response bodies (declared in [src.pydantic_models]). *)
Record QueryInput := mkQueryInput {
  question : string;
  session_id : option string;
  model : string            (* [query_input.model.value] *)
}.

Record QueryResponse := mkQueryResponse {
  resp_answer : string;
  resp_session_id : string;
  resp_model : string
}.

Record DeleteFileRequest := mkDeleteFileRequest {
  file_id : Z
}.

Record UploadFile := mkUploadFile {
  filename : string;
  file : string             (* the bytes of the uploaded file *)
}.

Record UploadResponse := mkUploadResponse {
  up_message : string;
  up_file_id : Z
}.

(** The body of a delete response: a one-key [dict]. *)
Inductive DeleteResponse : Type :=
| DeleteMessage (message : string)
| DeleteError (error : string).

(** ** The world the handlers run in *)

(** State of the relational log store. [db_outages] is the store's failure
    schedule, read only by the modelled store of [SpecStores]. *)
Record Db := mkDb {
  documents : list DocumentRecord;
  application_logs : list ChatLogEntry;
  db_clock : Z;
  db_outages : list bool
}.

(** State of the vector store: chunks tagged with the file they come from. *)
Record Chroma := mkChroma {
  chunks : list (Z * string);
  chroma_outages : list bool
}.

(** State of the answer generator: what the next invocations will do. *)
Record Llm := mkLlm {
  replies : list (Outcome Response)
}.

(** A node of the file system. *)
Inductive Node : Type :=
| Dir
| File (data : string).

Inductive Level : Type := INFO | WARNING | ERROR.

Record World := mkWorld {
  db : Db;
  chroma : Chroma;
  llm : Llm;
  files : gmap string Node;
  app_log : list (Level * string);      (* the records written to app.log *)
  uuids : list string                   (* what [uuid.uuid4()] will produce *)
}.

Definition set_db (d : Db) (w : World) : World :=
  mkWorld d (chroma w) (llm w) (files w) (app_log w) (uuids w).
Definition set_chroma (c : Chroma) (w : World) : World :=
  mkWorld (db w) c (llm w) (files w) (app_log w) (uuids w).
Definition set_llm (l : Llm) (w : World) : World :=
  mkWorld (db w) (chroma w) l (files w) (app_log w) (uuids w).
Definition set_files (f : gmap string Node) (w : World) : World :=
  mkWorld (db w) (chroma w) (llm w) f (app_log w) (uuids w).
Definition set_app_log (l : list (Level * string)) (w : World) : World :=
  mkWorld (db w) (chroma w) (llm w) (files w) l (uuids w).
Definition set_uuids (u : list string) (w : World) : World :=
  mkWorld (db w) (chroma w) (llm w) (files w) (app_log w) u.

(** The chain built by [get_rag_chain]: the handler only chooses the model
    of its language model. *)
Record RagChain := mkRagChain {
  llm_model : string
}.

(** A call made to a collaborator, with its arguments and its result. *)
Inductive Event : Type :=
| EvGetChatHistory (sid : string) (res : Outcome (list Turn))
| EvInvoke (chain : RagChain) (input : string) (chat_history : list Turn)
           (res : Outcome Response)
| EvInsertApplicationLogs (sid q a m : string) (res : Outcome unit)
| EvInsertDocumentRecord (name : string) (res : Outcome Z)
| EvDeleteDocumentRecord (fid : Z) (res : Outcome bool)
| EvGetAllDocuments (res : Outcome (list DocumentRecord))
| EvIndexDocumentToChroma (path : string) (fid : Z) (res : Outcome bool)
| EvDeleteDocFromChroma (fid : Z) (res : Outcome bool).

(** ** The monad of handlers *)

Record Result (A : Type) := mkResult {
  outcome : Outcome A;
  world : World;
  trace : list Event
}.
Arguments mkResult {A} _ _ _.
Arguments outcome {A} _.
Arguments world {A} _.
Arguments trace {A} _.

Definition M (A : Type) : Type := World -> Result A.

Definition ret {A} (a : A) : M A := fun w => mkResult (Return a) w [].

Definition raise {A} (e : Exn) : M A := fun w => mkResult (Raise e) w [].

Definition bind {A B} (m : M A) (k : A -> M B) : M B := fun w =>
  let r := m w in
  match outcome r with
  | Return a =>
      let r' := k a (world r) in
      mkResult (outcome r') (world r') (trace r ++ trace r')
  | Raise e => mkResult (Raise e) (world r) (trace r)
  end.

Notation "x <- m ;; k" := (bind m (fun x => k))
  (at level 20, m at level 99, k at level 200, only parsing).
Notation "'do' m ;; k" := (bind m (fun _ => k))
  (at level 20, m at level 99, k at level 200, only parsing).

(** [try: m  except Exception as e: h e]. *)
Definition try_except {A} (m : M A) (h : Exn -> M A) : M A := fun w =>
  let r := m w in
  match outcome r with
  | Return a => r
  | Raise e =>
      let r' := h e (world r) in
      mkResult (outcome r') (world r') (trace r ++ trace r')
  end.

(** [try: m  finally: f].  The [finally] block always runs; an exception
    raised in it replaces the outcome of [m]. *)
Definition try_finally {A} (m : M A) (f : M unit) : M A := fun w =>
  let r := m w in
  let r' := f (world r) in
  mkResult
    (match outcome r' with
     | Return _ => outcome r
     | Raise e => Raise e
     end)
    (world r') (trace r ++ trace r').

(** [logging.<level>(msg)]: appends a record to the application log. *)
Definition logging (lvl : Level) (msg : string) : M unit := fun w =>
  mkResult (Return tt) (set_app_log (app_log w ++ [(lvl, msg)]) w) [].

(** [str(uuid.uuid4())]. *)
Definition uuid4 : M string := fun w =>
  match uuids w with
  | u :: rest => mkResult (Return u) (set_uuids rest w) []
  | [] => mkResult (Return "00000000-0000-4000-8000-000000000000") w []
  end.

(** Calls into the three collaborators: run the operation on its part of the
    world and record the call. *)
Definition call_db {A} (op : Db -> Outcome A * Db) (ev : Outcome A -> Event) : M A :=
  fun w => let '(o, d) := op (db w) in mkResult o (set_db d w) [ev o].

Definition call_chroma {A} (op : Chroma -> Outcome A * Chroma) (ev : Outcome A -> Event) : M A :=
  fun w => let '(o, c) := op (chroma w) in mkResult o (set_chroma c w) [ev o].

Definition call_llm {A} (op : Llm -> Outcome A * Llm) (ev : Outcome A -> Event) : M A :=
  fun w => let '(o, l) := op (llm w) in mkResult o (set_llm l w) [ev o].

(** ** The collaborators' interface

    The functions the handlers import from [src.db_utils] and
    [src.chroma_utils], and the [invoke] method of the chain returned by
    [get_rag_chain].  Each may change its own store, return a value or raise.
    Indexing reads the uploaded file, the chain's retriever reads the vector
    store.  Building the chain's model, retriever and sub-chains happens
    inside the [try] block of the caller, so a failure to build them is a way
    for [invoke] to raise. *)
Record Env := mkEnv {
  get_chat_history : string -> Db -> Outcome (list Turn) * Db;
  insert_application_logs :
    string -> string -> string -> string -> Db -> Outcome unit * Db;
  insert_document_record : string -> Db -> Outcome Z * Db;
  delete_document_record : Z -> Db -> Outcome bool * Db;
  get_all_documents : Db -> Outcome (list DocumentRecord) * Db;
  index_document_to_chroma :
    string -> Z -> gmap string Node -> Chroma -> Outcome bool * Chroma;
  delete_doc_from_chroma : Z -> Chroma -> Outcome bool * Chroma;
  invoke : RagChain -> string -> list Turn -> Chroma -> Llm -> Outcome Response * Llm
}.

(** How FastAPI turns the outcome of a handler into an HTTP status. *)
Definition http_status {A} (o : Outcome A) : Z :=
  match o with
  | Return _ => 200
  | Raise (HTTPException c _) => c
  | Raise (Exception _) => 500
  end.

(** ** [src/langchain_utils.py] *)

Definition allowed_models : list string := ["gemini-2.0-flash"; "gemini-2.0-pro"].

Definition get_rag_chain (model : string) : RagChain :=
  let model_to_use :=
    if Py.contains allowed_models model then model else "gemini-2.0-flash" in
  mkRagChain model_to_use.

(** ** [src/main.py]: the chat endpoint *)

Section Handlers.

Variable env : Env.

(** The variables the candidate loop assigns. *)
Record LoopState := mkLoopState {
  st_last_error : option Exn;
  st_answer : option string;
  st_model_value : string
}.

(** [response.get("answer") or response.get("output_text") or str(response)]
    for a [dict], [str(response)] otherwise. *)
Definition extract_answer (response : Response) : string :=
  match response with
  | RespDict a o s =>
      match a with
      | Some x =>
          if Py.truthy x then x else
            match o with
            | Some y => if Py.truthy y then y else s
            | None => s
            end
      | None =>
          match o with
          | Some y => if Py.truthy y then y else s
          | None => s
          end
      end
  | RespOther s => s
  end.

Definition rag_chain_invoke (rag_chain : RagChain) (input : string)
    (chat_history : list Turn) : M Response := fun w =>
  call_llm (invoke env rag_chain input chat_history (chroma w))
           (EvInvoke rag_chain input chat_history) w.

(** The body of the [try] block of the loop, up to the assignment of
    [answer]. *)
Definition attempt (query_input : QueryInput) (sid : string)
    (chat_history : list Turn) (candidate : string) : M string :=
  let rag_chain := get_rag_chain candidate in
  response <- rag_chain_invoke rag_chain (question query_input) chat_history ;;
  do logging INFO ("RAG chain raw response for session " +:+ sid +:+ ": "
                   +:+ str_response response) ;;
  ret (extract_answer response).

(** [for candidate in model_candidates: try: ... break  except ...].
    Each step returns whether the loop was left by [break]. *)
Fixpoint for_candidates (query_input : QueryInput) (sid : string)
    (chat_history : list Turn) (candidates : list string) (st : LoopState)
  : M LoopState :=
  match candidates with
  | [] => ret st
  | candidate :: rest =>
      step <- try_except
                (a <- attempt query_input sid chat_history candidate ;;
                 ret (true, mkLoopState None (Some a) candidate))
                (fun e =>
                   do logging WARNING ("Model '" +:+ candidate +:+ "' failed for session "
                                       +:+ sid +:+ ": " +:+ str_exn e) ;;
                   ret (false, mkLoopState (Some e) (st_answer st) (st_model_value st))) ;;
      if fst step then ret (snd step)
      else for_candidates query_input sid chat_history rest (snd step)
  end.

(** Lines 38-42: force only supported models. *)
Definition select_model (requested : string) : M string :=
  let model_value := requested in
  if negb (String.eqb model_value "gemini-2.0-flash") then
    do logging WARNING ("Unsupported model '" +:+ model_value
                        +:+ "' requested. Falling back to 'gemini-2.0-flash'.") ;;
    ret "gemini-2.0-flash"
  else ret model_value.

(** Lines 45-48. *)
Definition model_candidates (model_value : string) : list string :=
  [model_value; "gemini-2.0-flash"].

(** Line 28: [query_input.session_id or str(uuid.uuid4())]. *)
Definition session_id_or_new (query_input : QueryInput) : M string :=
  match session_id query_input with
  | Some s => if Py.truthy s then ret s else uuid4
  | None => uuid4
  end.

(** Lines 31-36: the history fetch, with its fallback to the empty list. *)
Definition fetch_chat_history (sid : string) : M (list Turn) :=
  try_except
    (call_db (get_chat_history env sid) (EvGetChatHistory sid))
    (fun e =>
       do logging ERROR ("Failed to fetch chat history for " +:+ sid +:+ ": "
                         +:+ str_exn e) ;;
       ret []).

(** Lines 83-87: the chat log insertion, with its handler. *)
Definition persist_chat_log (sid q a m : string) : M unit :=
  try_except
    (call_db (insert_application_logs env sid q a m)
             (EvInsertApplicationLogs sid q a m))
    (fun e =>
       logging ERROR ("Failed to insert application log for " +:+ sid +:+ ": "
                      +:+ str_exn e)).

Definition chat (query_input : QueryInput) : M QueryResponse :=
  sid <- session_id_or_new query_input ;;
  do logging INFO ("Session ID: " +:+ sid +:+ ", User Query: " +:+ question query_input
                   +:+ ", Model: " +:+ model query_input) ;;
  chat_history <- fetch_chat_history sid ;;
  model_value <- select_model (model query_input) ;;
  st <- for_candidates query_input sid chat_history (model_candidates model_value)
          (mkLoopState None None model_value) ;;
  match st_last_error st, st_answer st with
  | None, Some a =>
      do persist_chat_log sid (question query_input) a (st_model_value st) ;;
      do logging INFO ("Session ID: " +:+ sid +:+ ", AI Response: " +:+ a) ;;
      ret (mkQueryResponse a sid (st_model_value st))
  | le, _ =>
      do logging ERROR ("All model candidates failed for session " +:+ sid +:+ ": "
                        +:+ str_opt_exn le) ;;
      raise (HTTPException 500 ("RAG invocation failed: " +:+ str_opt_exn le))
  end.

(** ** The document endpoints *)

Definition os_path_exists (p : string) : M bool := fun w =>
  mkResult (Return (match files w !! p with Some _ => true | None => false end)) w [].

(** [os.makedirs(p)], called only when [p] does not exist. *)
Definition os_makedirs (p : string) : M unit := fun w =>
  mkResult (Return tt) (set_files (<[p := Dir]> (files w)) w) [].

(** Whether the directory that is to contain [p] exists; a path without a
    separator is relative to the working directory. *)
Definition parent_is_dir (fs : gmap string Node) (p : string) : bool :=
  let i := Py.rfind p "/"%char in
  if i <? 0 then true
  else match fs !! Py.slice_to p i with
       | Some Dir => true
       | _ => false
       end.

(** [with open(path, "wb") as buffer: shutil.copyfileobj(file.file, buffer)]. *)
Definition write_upload (path : string) (data : string) : M unit := fun w =>
  match files w !! path with
  | Some Dir => mkResult (Raise (Exception "IsADirectoryError")) w []
  | _ =>
      if parent_is_dir (files w) path
      then mkResult (Return tt) (set_files (<[path := File data]> (files w)) w) []
      else mkResult (Raise (Exception "FileNotFoundError")) w []
  end.

(** [os.remove(path)]. *)
Definition os_remove (path : string) : M unit := fun w =>
  match files w !! path with
  | Some (File _) => mkResult (Return tt) (set_files (delete path (files w)) w) []
  | Some Dir => mkResult (Raise (Exception "IsADirectoryError")) w []
  | None => mkResult (Raise (Exception "FileNotFoundError")) w []
  end.

Definition allowed_extensions : list string := [".pdf"; ".docx"; ".html"].

Definition file_extension (f : UploadFile) : string :=
  Py.lower (snd (Py.splitext (filename f))).

Definition documents_dir : string := "data/documents".

Definition temp_file_path (f : UploadFile) : string :=
  Py.path_join documents_dir ("temp_" +:+ filename f).

(** Lines 103-105: create the documents directory when it is missing. *)
Definition ensure_documents_dir : M unit :=
  present <- os_path_exists documents_dir ;;
  if negb present then os_makedirs documents_dir else ret tt.

(** Lines 110-121: the body of the [try] block. *)
Definition store_and_index (f : UploadFile) : M UploadResponse :=
  do write_upload (temp_file_path f) (file f) ;;
  fid <- call_db (insert_document_record env (filename f))
                 (EvInsertDocumentRecord (filename f)) ;;
  success <- (fun w =>
                call_chroma
                  (index_document_to_chroma env (temp_file_path f) fid (files w))
                  (EvIndexDocumentToChroma (temp_file_path f) fid) w) ;;
  if (success : bool) then
    ret (mkUploadResponse
           ("File " +:+ filename f +:+ " has been successfully uploaded and indexed.")
           fid)
  else
    do call_db (delete_document_record env fid) (EvDeleteDocumentRecord fid) ;;
    raise (HTTPException 500 ("Failed to index " +:+ filename f +:+ ".")).

(** Lines 123-124: the [finally] block. *)
Definition remove_temp_file (f : UploadFile) : M unit :=
  present <- os_path_exists (temp_file_path f) ;;
  if (present : bool) then os_remove (temp_file_path f) else ret tt.

Definition upload_and_index_document (f : UploadFile) : M UploadResponse :=
  if negb (Py.contains allowed_extensions (file_extension f)) then
    raise (HTTPException 400 ("Unsupported file type. Allowed types are: "
                              +:+ Py.join ", " allowed_extensions))
  else
    do ensure_documents_dir ;;
    try_finally (store_and_index f) (remove_temp_file f).

Definition list_documents : M (list DocumentRecord) :=
  call_db (get_all_documents env) EvGetAllDocuments.

Definition delete_document (request : DeleteFileRequest) : M DeleteResponse :=
  chroma_delete_success <-
    call_chroma (delete_doc_from_chroma env (file_id request))
                (EvDeleteDocFromChroma (file_id request)) ;;
  if (chroma_delete_success : bool) then
    db_delete_success <-
      call_db (delete_document_record env (file_id request))
              (EvDeleteDocumentRecord (file_id request)) ;;
    if (db_delete_success : bool) then
      ret (DeleteMessage ("Successfully deleted document with file_id "
                          +:+ pretty (file_id request) +:+ " from the system."))
    else
      ret (DeleteError ("Deleted from Chroma but failed to delete document with file_id "
                        +:+ pretty (file_id request) +:+ " from the database."))
  else
    ret (DeleteError ("Failed to delete document with file_id "
                      +:+ pretty (file_id request) +:+ " from Chroma.")).

End Handlers.

(** ** The stores as the specification describes them *)

Module SpecStores.

(** Modelled from the spec: the stores are external systems whose calls
    can fail; the head of a failure schedule tells whether the next call
    meets an outage, and an exhausted schedule means no outage. *)
Definition next_outage (schedule : list bool) : bool * list bool :=
  match schedule with
  | down :: rest => (down, rest)
  | [] => (false, [])
  end.

Definition db_step (d : Db) : bool * Db :=
  let '(down, rest) := next_outage (db_outages d) in
  (down, mkDb (documents d) (application_logs d) (db_clock d) rest).

Definition chroma_step (c : Chroma) : bool * Chroma :=
  let '(down, rest) := next_outage (chroma_outages c) in
  (down, mkChroma (chunks c) rest).

(** Modelled from the spec: [get_chat_history] of [src.db_utils],
    "get_history(session_id) -> ordered sequence of turns"; fetching can
    fail by raising. *)
Definition get_chat_history (sid : string) (d : Db) : Outcome (list Turn) * Db :=
  let '(down, d') := db_step d in
  if down then (Raise (Exception "log store unavailable"), d')
  else
    (Return (map (fun e => mkTurn (log_question e) (log_answer e))
                 (List.filter (fun e => String.eqb (log_session_id e) sid)
                              (application_logs d'))), d').

(** Modelled from the spec: [insert_application_logs] of [src.db_utils],
    "insert_log(session_id, question, answer, model)", which appends a
    ChatLogEntry {session_id, question, answer, model_name, timestamp};
    persisting can fail by raising. *)
Definition insert_application_logs (sid q a m : string) (d : Db) : Outcome unit * Db :=
  let '(down, d') := db_step d in
  if down then (Raise (Exception "log store unavailable"), d')
  else
    (Return tt,
     mkDb (documents d')
          (application_logs d' ++ [mkChatLogEntry sid q a m (db_clock d')])
          (db_clock d' + 1) (db_outages d')).

Definition fresh_file_id (d : Db) : Z :=
  fold_right Z.max 0 (map doc_id (documents d)) + 1.

(** Modelled from the spec: [insert_document_record] of [src.db_utils],
    "insert_document_record(filename) -> file_id", which creates a
    DocumentRecord {file_id (unique), filename, upload_timestamp}. *)
Definition insert_document_record (name : string) (d : Db) : Outcome Z * Db :=
  let '(down, d') := db_step d in
  if down then (Raise (Exception "log store unavailable"), d')
  else
    let fid := fresh_file_id d' in
    (Return fid,
     mkDb (documents d' ++ [mkDocumentRecord fid name (db_clock d')])
          (application_logs d') (db_clock d' + 1) (db_outages d')).

(** Modelled from the spec: [delete_document_record] of [src.db_utils],
    "delete_document_record(file_id) -> bool": the record is removed and
    [True] returned, or the store fails, nothing is removed and [False] is
    returned. *)
Definition delete_document_record (fid : Z) (d : Db) : Outcome bool * Db :=
  let '(down, d') := db_step d in
  if down then (Return false, d')
  else
    (Return true,
     mkDb (List.filter (fun r => negb (doc_id r =? fid)) (documents d'))
          (application_logs d') (db_clock d') (db_outages d')).

(** Modelled from the spec: [get_all_documents] of [src.db_utils],
    "list_documents() -> sequence", all records in the order stored. *)
Definition get_all_documents (d : Db) : Outcome (list DocumentRecord) * Db :=
  let '(down, d') := db_step d in
  if down then (Raise (Exception "log store unavailable"), d')
  else (Return (documents d'), d').

(** Modelled from the spec: [index_document_to_chroma] of
    [src.chroma_utils], "index(file_path, file_id) -> bool": the document is
    split into chunks owned by the store and keyed by file_id (one chunk
    here); [False] when the store rejects the content or the file cannot be
    read. *)
Definition index_document_to_chroma (path : string) (fid : Z)
    (fs : gmap string Node) (c : Chroma) : Outcome bool * Chroma :=
  let '(down, c') := chroma_step c in
  if down then (Return false, c')
  else
    match fs !! path with
    | Some (File data) =>
        (Return true, mkChroma (chunks c' ++ [(fid, data)]) (chroma_outages c'))
    | _ => (Return false, c')
    end.

(** Modelled from the spec: [delete_doc_from_chroma] of
    [src.chroma_utils], "delete(file_id) -> bool", bulk deletion of the
    chunks of a file; "deleting a non-existent file_id from the store
    returns failure". *)
Definition delete_doc_from_chroma (fid : Z) (c : Chroma) : Outcome bool * Chroma :=
  let '(down, c') := chroma_step c in
  if down then (Return false, c')
  else if existsb (fun ch => fst ch =? fid) (chunks c') then
    (Return true,
     mkChroma (List.filter (fun ch => negb (fst ch =? fid)) (chunks c'))
              (chroma_outages c'))
  else (Return false, c').

(** Modelled from the spec: the chain's [invoke], "generate(prompt,
    model_id) -> text, fails with a generic invocation error on any
    failure".  What the generator answers is not determined by the
    handler: it is read off the generator's state. *)
Definition invoke (chain : RagChain) (input : string) (chat_history : list Turn)
    (c : Chroma) (l : Llm) : Outcome Response * Llm :=
  match replies l with
  | r :: rest => (r, mkLlm rest)
  | [] => (Raise (Exception "generation failed"), l)
  end.

Definition env : Env :=
  mkEnv get_chat_history insert_application_logs insert_document_record
        delete_document_record get_all_documents index_document_to_chroma
        delete_doc_from_chroma invoke.

(** Whether the document table holds a record with this id. *)
Definition has_document_record (fid : Z) (d : Db) : bool :=
  existsb (fun r => doc_id r =? fid) (documents d).

(** A world with empty stores in which no call fails and the generator
    has the given replies in store. *)
Definition quiet_world (answers : list (Outcome Response)) : World :=
  mkWorld (mkDb [] [] 0 []) (mkChroma [] []) (mkLlm answers) ∅ [] [].

End SpecStores.

(** ** Sample requests and worlds *)

Module Samples.

Definition report_pdf : UploadFile := mkUploadFile "report.pdf" "%PDF-1.7 refund policy".

Definition notes_txt : UploadFile := mkUploadFile "notes.txt" "plain text".

Definition refund_answer : Response :=
  RespDict (Some "Refunds are accepted within 30 days.") None "{'answer': ...}".

(** A question that asks for a model other than the supported one. *)
Definition ask_pro : QueryInput :=
  mkQueryInput "What is the refund policy?" (Some "session-1") "gemini-2.0-pro".

(** The generator answers at once; the stores work. *)
Definition answering_world : World := SpecStores.quiet_world [Return refund_answer].

(** The generator is down. *)
Definition silent_world : World := SpecStores.quiet_world [].

(** The first call to the relational store (the history fetch) fails. *)
Definition history_down_world : World :=
  mkWorld (mkDb [] [] 0 [true]) (mkChroma [] []) (mkLlm [Return refund_answer]) ∅ [] [].

(** The second call to the relational store (the log insertion) fails. *)
Definition log_down_world : World :=
  mkWorld (mkDb [] [] 0 [false; true]) (mkChroma [] []) (mkLlm [Return refund_answer])
          ∅ [] [].

(** The vector store rejects the next document; the relational store
    works. *)
Definition indexing_down_world : World :=
  mkWorld (mkDb [] [] 0 []) (mkChroma [] [true]) (mkLlm []) ∅ [] [].

(** The vector store rejects the next document, and the relational store
    fails on its second call (the rollback). *)
Definition rollback_down_world : World :=
  mkWorld (mkDb [] [] 0 [false; true]) (mkChroma [] [true]) (mkLlm []) ∅ [] [].

(** Document 7 is recorded and indexed; the relational store fails on its
    next call. *)
Definition record_delete_down_world : World :=
  mkWorld (mkDb [mkDocumentRecord 7 "report.pdf" 0] [] 1 [true])
          (mkChroma [(7, "chunk")] []) (mkLlm []) ∅ [] [].

(** Document 7 is recorded, but the vector store holds no chunk of it. *)
Definition unindexed_record_world : World :=
  mkWorld (mkDb [mkDocumentRecord 7 "report.pdf" 0] [] 1 [])
          (mkChroma [(3, "chunk")] []) (mkLlm []) ∅ [] [].

End Samples.

(** ** Vocabulary for the statements *)

(** The calls left in a trace by attempts that all raised: the i-th
    candidate met the i-th error. *)
Definition failed_attempts (input : string) (h : list Turn)
    (cands : list string) (errs : list Exn) : list Event :=
  zip_with (fun c e => EvInvoke (get_rag_chain c) input h (Raise e)) cands errs.

(** The value of [last_error] after the given errors were met in turn. *)
Definition last_error_after (start : option Exn) (errs : list Exn) : option Exn :=
  fold_left (fun _ e => Some e) errs start.

(** The history the pipeline works with after a fetch with this result. *)
Definition history_or_empty (res : Outcome (list Turn)) : list Turn :=
  match res with
  | Return h => h
  | Raise _ => []
  end.

(** The invocations of the chain recorded in a trace: the model of the
    chain's language model and how the invocation ended. *)
Definition invocation_of (ev : Event) : option (string * Outcome Response) :=
  match ev with
  | EvInvoke chain _ _ res => Some (llm_model chain, res)
  | _ => None
  end.

Definition invocations (t : list Event) : list (string * Outcome Response) :=
  omap invocation_of t.

(** The model a request is served with once lines 40-42 have run: the
    requested one if it is the supported one, the supported one otherwise. *)
Definition effective_model (requested : string) : string :=
  if String.eqb requested "gemini-2.0-flash" then requested else "gemini-2.0-flash".

(** An event that is not an invocation of the chain with a non-empty
    history. *)
Definition empty_history_invocation (ev : Event) : Prop :=
  match ev with
  | EvInvoke _ _ h _ => h = []
  | _ => True
  end.

(** An event that is not an invocation of a chain built for another model
    than the supported default. *)
Definition default_model_invocation (ev : Event) : Prop :=
  match ev with
  | EvInvoke chain _ _ _ =>
      chain = get_rag_chain "gemini-2.0-flash" /\ llm_model chain = "gemini-2.0-flash"
  | _ => True
  end.

(** ** Startup; vocabulary for the further properties *)

(** [src/main.py], lines 18-23: the startup hook.  [initialize_database] is
    imported from [src.db_utils] and is a parameter here, like the other
    collaborators. *)
Definition on_startup (initialize_database : Db -> Outcome unit * Db) : M unit :=
  try_except
    (fun w => let '(o, d) := initialize_database (db w) in mkResult o (set_db d w) [])
    (fun e => logging ERROR ("Database initialization failed on startup: " +:+ str_exn e)).

(** Lines 44-91 of [chat]: what runs once the session id, the history and
    the model value are known. *)
Definition chat_after_selection (env : Env) (query_input : QueryInput) (sid : string)
    (chat_history : list Turn) (model_value : string) : M QueryResponse :=
  bind (for_candidates env query_input sid chat_history (model_candidates model_value)
          (mkLoopState None None model_value))
       (fun st =>
          match st_last_error st, st_answer st with
          | None, Some a =>
              bind (persist_chat_log env sid (question query_input) a (st_model_value st))
                (fun _ =>
                   bind (logging INFO ("Session ID: " +:+ sid +:+ ", AI Response: " +:+ a))
                     (fun _ => ret (mkQueryResponse a sid (st_model_value st))))
          | le, _ =>
              bind (logging ERROR ("All model candidates failed for session " +:+ sid
                                   +:+ ": " +:+ str_opt_exn le))
                (fun _ => raise (HTTPException 500
                                   ("RAG invocation failed: " +:+ str_opt_exn le)))
          end).

(** A computation never takes a world outside the relation [R]. *)
Definition respects {A} (R : World -> World -> Prop) (m : M A) : Prop :=
  forall w, R w (world (m w)).

(** [R] does not look at the component written by [set]. *)
Definition closed_under {X} (set : X -> World -> World) (R : World -> World -> Prop) : Prop :=
  forall x w, R w (set x w).

(** The application log of the second world extends that of the first. *)
Definition log_extended (w w' : World) : Prop :=
  exists more, app_log w' = app_log w ++ more.

Definition is_history_fetch (ev : Event) : bool :=
  match ev with EvGetChatHistory _ _ => true | _ => false end.

Definition is_log_insertion (ev : Event) : bool :=
  match ev with EvInsertApplicationLogs _ _ _ _ _ => true | _ => false end.

Definition count_events (p : Event -> bool) (t : list Event) : nat :=
  length (List.filter p t).

(** Whether a string is made of ASCII characters only; on such strings
    [Py.lower] is [str.lower]. *)
Definition ascii_only (s : string) : bool :=
  forallb (fun c => (N_of_ascii c <? 128)%N) (list_ascii_of_string s).

(** Whether an invocation raised. *)
Definition raised {A} (o : Outcome A) : bool :=
  match o with Raise _ => true | Return _ => false end.

(** Further sample inputs. *)
Module MoreSamples.

(** The stores of the specification, except that the vector store is
    unreachable: indexing raises. *)
Definition unreachable_index_env : Env :=
  mkEnv SpecStores.get_chat_history SpecStores.insert_application_logs
        SpecStores.insert_document_record SpecStores.delete_document_record
        SpecStores.get_all_documents
        (fun _ _ _ c => (Raise (Exception "vector store unreachable"), c))
        SpecStores.delete_doc_from_chroma SpecStores.invoke.

(** The stores of the specification, except that deleting from the vector
    store raises. *)
Definition unreachable_delete_env : Env :=
  mkEnv SpecStores.get_chat_history SpecStores.insert_application_logs
        SpecStores.insert_document_record SpecStores.delete_document_record
        SpecStores.get_all_documents SpecStores.index_document_to_chroma
        (fun _ c => (Raise (Exception "vector store unreachable"), c))
        SpecStores.invoke.

(** The stores of the specification, except that deleting a record
    raises. *)
Definition unreachable_record_env : Env :=
  mkEnv SpecStores.get_chat_history SpecStores.insert_application_logs
        SpecStores.insert_document_record
        (fun _ d => (Raise (Exception "log store unavailable"), d))
        SpecStores.get_all_documents SpecStores.index_document_to_chroma
        SpecStores.delete_doc_from_chroma SpecStores.invoke.

(** The relational store fails on its next call. *)
Definition db_down_world : World :=
  mkWorld (mkDb [] [] 0 [true]) (mkChroma [] []) (mkLlm []) ∅ [] [].

Definition readme : UploadFile := mkUploadFile "README" "plain text".

End MoreSamples.

(** ** Running the monad *)

Lemma bind_Return {A B} (m : M A) (k : A -> M B) w a w1 t1 :
  m w = mkResult (Return a) w1 t1 ->
  bind m k w = mkResult (outcome (k a w1)) (world (k a w1)) (t1 ++ trace (k a w1)).
Proof. intros H. unfold bind. rewrite H. reflexivity. Qed.

Lemma bind_Raise {A B} (m : M A) (k : A -> M B) w e w1 t1 :
  m w = mkResult (Raise e) w1 t1 ->
  bind m k w = mkResult (Raise e) w1 t1.
Proof. intros H. unfold bind. rewrite H. reflexivity. Qed.

Lemma try_except_Return {A} (m : M A) h w a w1 t1 :
  m w = mkResult (Return a) w1 t1 ->
  try_except m h w = mkResult (Return a) w1 t1.
Proof. intros H. unfold try_except. rewrite H. reflexivity. Qed.

Lemma try_except_Raise {A} (m : M A) h w e w1 t1 :
  m w = mkResult (Raise e) w1 t1 ->
  try_except m h w = mkResult (outcome (h e w1)) (world (h e w1)) (t1 ++ trace (h e w1)).
Proof. intros H. unfold try_except. rewrite H. reflexivity. Qed.

Lemma result_eta {A} (r : Result A) : r = mkResult (outcome r) (world r) (trace r).
Proof. destruct r; reflexivity. Qed.

(** ** The chat handler, step by step *)

Section ChatFacts.
Variable env : Env.

Lemma rag_chain_invoke_run chain input h w :
  rag_chain_invoke env chain input h w =
  mkResult (fst (invoke env chain input h (chroma w) (llm w)))
           (set_llm (snd (invoke env chain input h (chroma w) (llm w))) w)
           [EvInvoke chain input h (fst (invoke env chain input h (chroma w) (llm w)))].
Proof. unfold rag_chain_invoke, call_llm. destruct (invoke _ _ _ _ _ _); reflexivity. Qed.

Lemma for_candidates_cons_return q sid h c rest st w resp :
  fst (invoke env (get_rag_chain c) (question q) h (chroma w) (llm w)) = Return resp ->
  exists w',
    for_candidates env q sid h (c :: rest) st w =
    mkResult (Return (mkLoopState None (Some (extract_answer resp)) c)) w'
             [EvInvoke (get_rag_chain c) (question q) h (Return resp)].
Proof.
  intros H. eexists. cbn [for_candidates].
  erewrite bind_Return; cycle 1.
  { apply try_except_Return.
    erewrite bind_Return; cycle 1.
    { unfold attempt.
      erewrite bind_Return; [|rewrite rag_chain_invoke_run, H; reflexivity].
      reflexivity. }
    reflexivity. }
  reflexivity.
Qed.

Lemma for_candidates_cons_raise q sid h c rest st w e :
  fst (invoke env (get_rag_chain c) (question q) h (chroma w) (llm w)) = Raise e ->
  exists w',
    for_candidates env q sid h (c :: rest) st w =
    let r := for_candidates env q sid h rest
               (mkLoopState (Some e) (st_answer st) (st_model_value st)) w' in
    mkResult (outcome r) (world r)
             (EvInvoke (get_rag_chain c) (question q) h (Raise e) :: trace r).
Proof.
  intros H. eexists. cbn [for_candidates].
  erewrite bind_Return; cycle 1.
  { erewrite try_except_Raise; cycle 1.
    { apply bind_Raise. unfold attempt.
      apply bind_Raise. rewrite rag_chain_invoke_run, H. reflexivity. }
    reflexivity. }
  cbn [fst snd outcome world trace app]. reflexivity.
Qed.

Lemma for_candidates_spec q sid h cands :
  forall st w,
    let r := for_candidates env q sid h cands st w in
    exists errs,
      (exists cand resp,
          cands !! length errs = Some cand /\
          trace r = failed_attempts (question q) h cands errs
                    ++ [EvInvoke (get_rag_chain cand) (question q) h (Return resp)] /\
          outcome r = Return (mkLoopState None (Some (extract_answer resp)) cand))
      \/ (length errs = length cands /\
          trace r = failed_attempts (question q) h cands errs /\
          outcome r = Return (mkLoopState (last_error_after (st_last_error st) errs)
                                          (st_answer st) (st_model_value st))).
Proof.
  induction cands as [|c rest IH]; intros st w r.
  - exists []. right. subst r. destruct st. repeat split.
  - destruct (fst (invoke env (get_rag_chain c) (question q) h (chroma w) (llm w)))
      as [resp|e] eqn:Hinv.
    + destruct (for_candidates_cons_return q sid h c rest st w resp Hinv) as [w' Hrun].
      exists []. left. exists c, resp. subst r. rewrite Hrun. repeat split.
    + destruct (for_candidates_cons_raise q sid h c rest st w e Hinv) as [w' Hrun].
      specialize (IH (mkLoopState (Some e) (st_answer st) (st_model_value st)) w').
      cbv zeta in IH. destruct IH as [errs [(cand & resp & Hc & Ht & Ho)|(Hl & Ht & Ho)]].
      * exists (e :: errs). left. exists cand, resp. subst r. rewrite Hrun.
        cbn [outcome trace length]. rewrite Ht, Ho. repeat split. exact Hc.
      * exists (e :: errs). right. subst r. rewrite Hrun.
        cbn [outcome trace length]. rewrite Ht, Ho, Hl. repeat split.
Qed.

Lemma session_id_or_new_run q w :
  exists sid w',
    session_id_or_new q w = mkResult (Return sid) w' [] /\
    (forall s, session_id q = Some s -> Py.truthy s = true -> sid = s).
Proof.
  unfold session_id_or_new, uuid4, ret.
  destruct (session_id q) as [s|]; [destruct (Py.truthy s) eqn:Hs|];
    try destruct (uuids w); eexists _, _; (split; [reflexivity|]);
    intros s' Heq Ht; congruence.
Qed.

Lemma fetch_chat_history_run sid w :
  exists hres w',
    fetch_chat_history env sid w =
    mkResult (Return (history_or_empty hres)) w' [EvGetChatHistory sid hres].
Proof.
  unfold fetch_chat_history, try_except, call_db.
  destruct (get_chat_history env sid (db w)) as [[h|e] d].
  - exists (Return h). eexists. reflexivity.
  - exists (Raise e). eexists. reflexivity.
Qed.

Lemma select_model_run requested w :
  exists w', select_model requested w = mkResult (Return "gemini-2.0-flash") w' [].
Proof.
  unfold select_model.
  destruct (String.eqb requested "gemini-2.0-flash") eqn:Heq.
  - apply String.eqb_eq in Heq. subst. eexists; reflexivity.
  - eexists; reflexivity.
Qed.

Lemma persist_chat_log_run sid q a m w :
  exists lres w',
    persist_chat_log env sid q a m w =
    mkResult (Return tt) w' [EvInsertApplicationLogs sid q a m lres].
Proof.
  unfold persist_chat_log, try_except, call_db.
  destruct (insert_application_logs env sid q a m (db w)) as [[[]|e] d];
    eexists _, _; reflexivity.
Qed.

Lemma last_error_after_None errs :
  errs <> [] -> exists e, last_error_after None errs = Some e.
Proof.
  intros H. destruct errs as [|e0 errs]; [congruence|].
  unfold last_error_after. cbn [fold_left]. clear H. revert e0.
  induction errs as [|e1 errs IH]; intros e0; cbn [fold_left]; eauto.
Qed.

Lemma chat_run q w :
  let r := chat env q w in
  let cands := model_candidates "gemini-2.0-flash" in
  exists sid hres errs,
    (forall s, session_id q = Some s -> Py.truthy s = true -> sid = s) /\
    ((exists cand resp lres,
         cands !! length errs = Some cand /\
         trace r = EvGetChatHistory sid hres
                   :: failed_attempts (question q) (history_or_empty hres) cands errs
                   ++ [EvInvoke (get_rag_chain cand) (question q) (history_or_empty hres)
                                (Return resp);
                       EvInsertApplicationLogs sid (question q) (extract_answer resp)
                                               cand lres] /\
         outcome r = Return (mkQueryResponse (extract_answer resp) sid cand))
     \/ (exists e,
            length errs = length cands /\
            last_error_after None errs = Some e /\
            trace r = EvGetChatHistory sid hres
                      :: failed_attempts (question q) (history_or_empty hres) cands errs /\
            outcome r = Raise (HTTPException 500
                                 ("RAG invocation failed: " +:+ str_exn e)))).
Proof.
  intros r cands.
  assert (Hr : r = chat env q w) by reflexivity. clearbody r. unfold chat in Hr.
  destruct (session_id_or_new_run q w) as (sid & w1 & Hsid & Hs).
  rewrite (bind_Return _ _ _ _ _ _ Hsid) in Hr.
  erewrite (bind_Return (logging _ _)) in Hr; [|reflexivity].
  cbv beta in Hr.
  match type of Hr with context [bind (fetch_chat_history env sid) _ ?w2] =>
    destruct (fetch_chat_history_run sid w2) as (hres & w3 & Hh) end.
  rewrite (bind_Return _ _ _ _ _ _ Hh) in Hr. cbv beta in Hr.
  match type of Hr with context [bind (select_model ?m) _ ?w3] =>
    destruct (select_model_run m w3) as (w4 & Hm) end.
  rewrite (bind_Return _ _ _ _ _ _ Hm) in Hr. cbv beta in Hr.
  pose proof (for_candidates_spec q sid (history_or_empty hres)
                (model_candidates "gemini-2.0-flash")
                (mkLoopState None None "gemini-2.0-flash") w4) as Hloop.
  cbv zeta in Hloop.
  set (rl := for_candidates env q sid (history_or_empty hres)
               (model_candidates "gemini-2.0-flash")
               (mkLoopState None None "gemini-2.0-flash") w4) in *.
  exists sid, hres.
  destruct Hloop as [errs [(cand & resp & Hc & Ht & Ho)|(Hl & Ht & Ho)]].
  - exists errs. split; [exact Hs|]. left.
    rewrite (bind_Return _ _ _ _ _ _
               (eq_trans (result_eta rl) (f_equal3 mkResult Ho eq_refl eq_refl))) in Hr.
    cbn [st_last_error st_answer st_model_value] in Hr. cbv beta in Hr.
    match type of Hr with context [bind (persist_chat_log env ?a ?b ?c ?d) _ ?w5] =>
      destruct (persist_chat_log_run a b c d w5) as (lres & w6 & Hp) end.
    rewrite (bind_Return _ _ _ _ _ _ Hp) in Hr.
    exists cand, resp, lres. subst r. cbn [outcome trace world app]. split; [exact Hc|].
    rewrite Ht. split; [|reflexivity].
    cbn [app bind logging ret outcome trace world]. rewrite <- app_assoc. reflexivity.
  - destruct (last_error_after_None errs) as [e He].
    { intros ->. discriminate Hl. }
    exists errs. split; [exact Hs|]. right. exists e.
    rewrite (bind_Return _ _ _ _ _ _
               (eq_trans (result_eta rl) (f_equal3 mkResult Ho eq_refl eq_refl))) in Hr.
    cbn [st_last_error st_answer st_model_value] in Hr. rewrite He in Hr.
    subst r.
    cbn [outcome trace world app bind logging ret raise str_opt_exn]. rewrite Ht, app_nil_r.
    repeat split; assumption.
Qed.
End ChatFacts.

Lemma effective_model_default requested : effective_model requested = "gemini-2.0-flash".
Proof.
  unfold effective_model. destruct (String.eqb requested "gemini-2.0-flash") eqn:H; [|reflexivity].
  now apply String.eqb_eq in H.
Qed.

(** ** The chat endpoint: claims *)

Section ChatClaims.
Variable env : Env.

Lemma chat_cases q w :
  let r := chat env q w in
  let chain := get_rag_chain "gemini-2.0-flash" in
  let m := "gemini-2.0-flash" in
  exists sid hres,
    (forall s, session_id q = Some s -> Py.truthy s = true -> sid = s) /\
    ((exists resp lres,
         trace r = [EvGetChatHistory sid hres;
                    EvInvoke chain (question q) (history_or_empty hres) (Return resp);
                    EvInsertApplicationLogs sid (question q) (extract_answer resp) m lres] /\
         outcome r = Return (mkQueryResponse (extract_answer resp) sid m))
     \/ (exists e1 resp lres,
         trace r = [EvGetChatHistory sid hres;
                    EvInvoke chain (question q) (history_or_empty hres) (Raise e1);
                    EvInvoke chain (question q) (history_or_empty hres) (Return resp);
                    EvInsertApplicationLogs sid (question q) (extract_answer resp) m lres] /\
         outcome r = Return (mkQueryResponse (extract_answer resp) sid m))
     \/ (exists e1 e2,
         trace r = [EvGetChatHistory sid hres;
                    EvInvoke chain (question q) (history_or_empty hres) (Raise e1);
                    EvInvoke chain (question q) (history_or_empty hres) (Raise e2)] /\
         outcome r = Raise (HTTPException 500 ("RAG invocation failed: " +:+ str_exn e2)))).
Proof.
  intros r chain m. destruct (chat_run env q w) as (sid & hres & errs & Hs & Hcases).
  fold r in Hcases. exists sid, hres. split; [exact Hs|].
  destruct Hcases as [(cand & resp & lres & Hc & Ht & Ho)|(e & Hl & He & Ht & Ho)].
  - destruct errs as [|e1 [|e2 errs]]; cbn in Hc.
    + injection Hc as <-. left. exists resp, lres. split; assumption.
    + injection Hc as <-. right; left. exists e1, resp, lres. split; assumption.
    + discriminate Hc.
  - destruct errs as [|e1 [|e2 [|e3 errs]]]; try discriminate Hl.
    cbn in He. injection He as <-.
    right; right. exists e1, e2. split; assumption.
Qed.

(** C2, as amended.  The handler tries the two-element candidate list
    [model_candidates (effective_model requested)] in order: the first entry
    is the requested model only when that is the supported one, and the
    supported default otherwise; the second is the supported default.  Either
    the first invocation returns, its answer is the response and nothing else
    is invoked; or the first raises, the second returns and its answer is
    the response; or both raise, and the request fails with HTTP 500 whose
    detail carries the text of the last error, with no answer returned. *)
Theorem chat_fallback_over_candidates q w :
  let r := chat env q w in
  exists c1 c2,
    model_candidates (effective_model (model q)) = [c1; c2] /\
    ((exists resp sid,
         invocations (trace r) = [(llm_model (get_rag_chain c1), Return resp)] /\
         outcome r = Return (mkQueryResponse (extract_answer resp) sid c1))
     \/ (exists e1 resp sid,
         invocations (trace r) = [(llm_model (get_rag_chain c1), Raise e1);
                                  (llm_model (get_rag_chain c2), Return resp)] /\
         outcome r = Return (mkQueryResponse (extract_answer resp) sid c2))
     \/ (exists e1 e2,
         invocations (trace r) = [(llm_model (get_rag_chain c1), Raise e1);
                                  (llm_model (get_rag_chain c2), Raise e2)] /\
         outcome r = Raise (HTTPException 500 ("RAG invocation failed: " +:+ str_exn e2)) /\
         http_status (outcome r) = 500)).
Proof.
  intros r. rewrite effective_model_default.
  exists "gemini-2.0-flash", "gemini-2.0-flash". split; [reflexivity|].
  destruct (chat_cases q w) as (sid & hres & _ & Hcases). fold r in Hcases.
  destruct Hcases as [(resp & lres & Ht & Ho)|[(e1 & resp & lres & Ht & Ho)|(e1 & e2 & Ht & Ho)]];
    rewrite Ht, Ho.
  - left. exists resp, sid. split; reflexivity.
  - right; left. exists e1, resp, sid. split; reflexivity.
  - right; right. exists e1, e2. repeat split; reflexivity.
Qed.

(** C3.  When the requested model is not ["gemini-2.0-flash"] and the chat
    request succeeds, the [model] field of the response is
    ["gemini-2.0-flash"] and differs from the requested value. *)
Theorem chat_response_model_is_default q w resp :
  model q <> "gemini-2.0-flash" ->
  outcome (chat env q w) = Return resp ->
  resp_model resp = "gemini-2.0-flash" /\ resp_model resp <> model q.
Proof.
  intros Hne Hret.
  destruct (chat_cases q w) as (sid & hres & _ & Hcases).
  destruct Hcases as [(r1 & lres & _ & Ho)|[(e1 & r1 & lres & _ & Ho)|(e1 & e2 & _ & Ho)]];
    rewrite Ho in Hret; try discriminate Hret;
    injection Hret as <-; cbn [resp_model]; (split; [reflexivity|congruence]).
Qed.

(** C6.  When fetching the chat history raises, the request goes on: the
    next call is an invocation of the chain with the question and the empty
    history, every invocation receives the empty history, and as soon as one
    invocation returns a response the request returns normally (HTTP 200)
    with the answer extracted from that response.  The request fails only
    when both invocations raise, and then with the HTTP 500 of the
    generation failure, not with the error of the history fetch. *)
Theorem chat_survives_history_failure q w sid e :
  let r := chat env q w in
  In (EvGetChatHistory sid (Raise e)) (trace r) ->
  (exists res rest,
      trace r = EvGetChatHistory sid (Raise e)
                :: EvInvoke (get_rag_chain "gemini-2.0-flash") (question q) [] res
                :: rest) /\
  Forall empty_history_invocation (trace r) /\
  (forall chain input h resp,
      In (EvInvoke chain input h (Return resp)) (trace r) ->
      outcome r = Return (mkQueryResponse (extract_answer resp) sid (llm_model chain)) /\
      http_status (outcome r) = 200) /\
  ((exists chain input h resp, In (EvInvoke chain input h (Return resp)) (trace r))
   \/ (exists e1 e2,
          invocations (trace r)
          = [("gemini-2.0-flash", Raise e1); ("gemini-2.0-flash", Raise e2)] /\
          outcome r = Raise (HTTPException 500
                               ("RAG invocation failed: " +:+ str_exn e2)))).
Proof.
  intros r Hin.
  destruct (chat_cases q w) as (sid' & hres & _ & Hcases). fold r in Hcases.
  assert (Hfetch : sid' = sid /\ hres = Raise e).
  { destruct Hcases as [(r1 & lres & Ht & _)|[(e1 & r1 & lres & Ht & _)|(e1 & e2 & Ht & _)]];
      rewrite Ht in Hin; cbn [In] in Hin;
      (destruct Hin as [Hin|Hin];
       [|repeat (destruct Hin as [Hin|Hin]; [discriminate Hin|]); contradiction]);
      injection Hin as -> ->; split; reflexivity. }
  destruct Hfetch as [-> ->]. cbn [history_or_empty] in Hcases.
  destruct Hcases as [(r1 & lres & Ht & Ho)|[(e1 & r1 & lres & Ht & Ho)|(e1 & e2 & Ht & Ho)]];
    rewrite Ht, Ho.
  all: split; [eexists _, _; reflexivity|].
  all: split; [repeat constructor|].
  all: split;
    [intros chain input h resp Hinv; cbn [In] in Hinv;
     repeat (destruct Hinv as [Hinv|Hinv]; [try discriminate Hinv|]); try contradiction;
     injection Hinv as <- <- <- <-; split; reflexivity|].
  - left. eexists _, _, _, r1. cbn [In]. right. left. reflexivity.
  - left. eexists _, _, _, r1. cbn [In]. right. right. left. reflexivity.
  - right. exists e1, e2. split; reflexivity.
Qed.

(** C7.  Whenever the handler tried to persist the chat log entry,
    whatever that call did (in particular if it raised), the request returns
    normally with the answer, the session id and the model it tried to log;
    the answer is the one extracted from the response of a candidate that
    returned, the model is that candidate's. *)
Theorem chat_survives_log_failure q w sid qn a m res :
  let r := chat env q w in
  In (EvInsertApplicationLogs sid qn a m res) (trace r) ->
  outcome r = Return (mkQueryResponse a sid m) /\
  http_status (outcome r) = 200 /\
  exists chain input h resp,
    In (EvInvoke chain input h (Return resp)) (trace r) /\
    a = extract_answer resp /\ m = llm_model chain.
Proof.
  intros r Hin.
  destruct (chat_cases q w) as (sid' & hres & _ & Hcases). fold r in Hcases.
  destruct Hcases as [(r1 & lres & Ht & Ho)|[(e1 & r1 & lres & Ht & Ho)|(e1 & e2 & Ht & Ho)]];
    rewrite Ht in *; rewrite Ho; cbn [In] in Hin;
    repeat (destruct Hin as [Hin|Hin]; [try discriminate Hin|]); try contradiction;
    injection Hin as <- <- <- <- <-;
    (split; [reflexivity|]); (split; [reflexivity|]);
    exists (get_rag_chain "gemini-2.0-flash"), (question q), (history_or_empty hres), r1;
    (split; [cbn [In]; tauto|split; reflexivity]).
Qed.

(** C10.  The model value is overwritten with ["gemini-2.0-flash"] before
    the candidate list is built, both entries of that list are
    ["gemini-2.0-flash"], and every chain the handler invokes was built by
    [get_rag_chain "gemini-2.0-flash"] and runs that model: the requested
    identifier is never invoked unless it is the default itself. *)
Theorem chat_invokes_only_default q w :
  (forall w0, outcome (select_model (model q) w0) = Return "gemini-2.0-flash") /\
  model_candidates "gemini-2.0-flash" = ["gemini-2.0-flash"; "gemini-2.0-flash"] /\
  Forall default_model_invocation (trace (chat env q w)).
Proof.
  split; [|split].
  - intros w0. destruct (select_model_run (model q) w0) as [w' H]. now rewrite H.
  - reflexivity.
  - destruct (chat_cases q w) as (sid' & hres & _ & Hcases).
    destruct Hcases as [(r1 & lres & Ht & Ho)|[(e1 & r1 & lres & Ht & Ho)|(e1 & e2 & Ht & Ho)]];
      rewrite Ht; repeat constructor.
Qed.
End ChatClaims.

(** ** The document endpoints: claims *)

Section DocumentClaims.
Variable env : Env.

Lemma ensure_documents_dir_run w :
  exists w',
    ensure_documents_dir w = mkResult (Return tt) w' [] /\
    db w' = db w /\ chroma w' = chroma w.
Proof.
  unfold ensure_documents_dir, bind, os_path_exists, os_makedirs, ret.
  destruct (files w !! documents_dir); eexists; repeat split.
Qed.

Lemma remove_temp_file_run f w :
  let r := remove_temp_file f w in
  trace r = [] /\ db (world r) = db w /\ chroma (world r) = chroma w /\
  (forall data, files (world r) !! temp_file_path f <> Some (File data)) /\
  (forall data, files w !! temp_file_path f = Some (File data) -> outcome r = Return tt).
Proof.
  unfold remove_temp_file, bind, os_path_exists, os_remove, ret.
  destruct (files w !! temp_file_path f) as [[|data]|] eqn:Hf;
    cbn [outcome world trace app files db chroma set_files]; rewrite ?Hf;
    cbn [outcome world trace app files db chroma set_files]; repeat split;
    try (intros data'; rewrite ?Hf, ?lookup_delete_eq; congruence).
Qed.

Lemma upload_allowed_run f w :
  Py.contains allowed_extensions (file_extension f) = true ->
  exists w',
    db w' = db w /\ chroma w' = chroma w /\
    upload_and_index_document env f w =
    try_finally (store_and_index env f) (remove_temp_file f) w'.
Proof.
  intros Hok. unfold upload_and_index_document. rewrite Hok. cbn [negb].
  destruct (ensure_documents_dir_run w) as (w' & Hrun & Hdb & Hch).
  exists w'. split; [exact Hdb|]. split; [exact Hch|].
  rewrite (bind_Return _ _ _ _ _ _ Hrun).
  cbn [app]. symmetry. apply result_eta.
Qed.

(** C5.  After an upload whose extension passed the check, whatever the
    outcome (success, indexing failure, or an exception raised by writing the
    file or by a collaborator), no file is left at the temporary path. *)
Theorem upload_removes_temp_file f w data :
  Py.contains allowed_extensions (file_extension f) = true ->
  files (world (upload_and_index_document env f w)) !! temp_file_path f
  <> Some (File data).
Proof.
  intros Hok. destruct (upload_allowed_run f w Hok) as (w' & _ & _ & ->).
  unfold try_finally. cbn [world].
  apply (remove_temp_file_run f).
Qed.

(** C8.  An upload whose lower-cased extension is not [.pdf], [.docx] or
    [.html] is rejected with HTTP 400; the world is left as it was (no file
    written) and no collaborator was called (no record created, nothing
    indexed). *)
Theorem upload_rejects_disallowed_extension f w :
  Py.contains allowed_extensions (file_extension f) = false ->
  upload_and_index_document env f w =
  mkResult (Raise (HTTPException 400
                     "Unsupported file type. Allowed types are: .pdf, .docx, .html"))
           w [] /\
  http_status (outcome (upload_and_index_document env f w)) = 400.
Proof.
  intros Hno. unfold upload_and_index_document. rewrite Hno. split; reflexivity.
Qed.

Lemma store_and_index_run f w :
  let r := store_and_index env f w in
  let inserted := insert_document_record env (filename f) (db w) in
  (trace r = [] /\ (exists e, outcome r = Raise e))
  \/ (exists e, fst inserted = Raise e /\
        trace r = [EvInsertDocumentRecord (filename f) (Raise e)])
  \/ (exists fid ires,
        fst inserted = Return fid /\
        files (world r) !! temp_file_path f = Some (File (file f)) /\
        match ires with
        | Return true =>
            trace r = [EvInsertDocumentRecord (filename f) (Return fid);
                       EvIndexDocumentToChroma (temp_file_path f) fid ires] /\
            db (world r) = snd inserted /\
            outcome r = Return (mkUploadResponse
                                  ("File " +:+ filename f
                                   +:+ " has been successfully uploaded and indexed.") fid)
        | Return false =>
            let rollback := delete_document_record env fid (snd inserted) in
            trace r = [EvInsertDocumentRecord (filename f) (Return fid);
                       EvIndexDocumentToChroma (temp_file_path f) fid ires;
                       EvDeleteDocumentRecord fid (fst rollback)] /\
            db (world r) = snd rollback /\
            outcome r = match fst rollback with
                        | Return _ => Raise (HTTPException 500
                                               ("Failed to index " +:+ filename f +:+ "."))
                        | Raise e => Raise e
                        end
        | Raise e =>
            trace r = [EvInsertDocumentRecord (filename f) (Return fid);
                       EvIndexDocumentToChroma (temp_file_path f) fid ires] /\
            db (world r) = snd inserted /\
            outcome r = Raise e
        end).
Proof.
  intros r inserted.
  assert (Hr : r = store_and_index env f w) by reflexivity. clearbody r.
  subst inserted.
  unfold store_and_index, bind, write_upload, call_db, call_chroma, ret, raise in Hr.
  cbv beta zeta in Hr.
  destruct (files w !! temp_file_path f) as [[|old]|];
    try destruct (parent_is_dir (files w) (temp_file_path f));
    cbn [outcome world trace app db chroma files set_files set_db set_chroma] in Hr;
    try (left; subst r; split; [reflexivity|eexists; reflexivity]).
  all: destruct (insert_document_record env (filename f) (db w)) as [[fid|e] d1];
    cbn [outcome world trace app db chroma files set_files set_db set_chroma fst snd] in Hr |- *;
    [|right; left; exists e; subst r; split; reflexivity].
  all: right; right; exists fid.
  all: match type of Hr with context [index_document_to_chroma env ?p ?i ?fs ?c] =>
      destruct (index_document_to_chroma env p i fs c) as [ires c2] end;
    exists ires; (split; [reflexivity|]);
    destruct ires as [[|]|e];
    cbn [outcome world trace app db chroma files set_files set_db set_chroma fst snd] in Hr;
    try destruct (delete_document_record env fid d1) as [[b|e] d3];
    cbn [outcome world trace app db chroma files set_files set_db set_chroma fst snd] in Hr |- *;
    subst r; cbn [outcome world trace files db set_chroma set_db set_files];
    rewrite lookup_insert_eq; repeat split.
Qed.

Lemma upload_allowed_result f w :
  Py.contains allowed_extensions (file_extension f) = true ->
  exists w',
    db w' = db w /\ chroma w' = chroma w /\
    let body := store_and_index env f w' in
    let r := upload_and_index_document env f w in
    trace r = trace body /\
    db (world r) = db (world body) /\
    (forall data, files (world body) !! temp_file_path f = Some (File data) ->
                  outcome r = outcome body).
Proof.
  intros Hok. destruct (upload_allowed_run f w Hok) as (w' & Hdb & Hch & Hrun).
  exists w'. split; [exact Hdb|]. split; [exact Hch|].
  intros body r. subst r. rewrite Hrun. unfold try_finally. fold body.
  cbn [outcome world trace].
  destruct (remove_temp_file_run f (world body)) as (Ht & Hd & _ & _ & Hout).
  cbv zeta in Ht, Hd, Hout. rewrite Ht, Hd, app_nil_r.
  split; [reflexivity|]. split; [reflexivity|].
  intros data Hfile. rewrite (Hout data Hfile). reflexivity.
Qed.

(** C1, as amended.  For an upload with an allowed extension in which
    indexing returned a flag for the just-created record [fid]: if the flag
    is [True], the success message is returned and the relational store is
    exactly as [insert_document_record] left it; if it is [False],
    [delete_document_record fid] is the next and last call, the relational
    store is exactly as that call left it, and the request fails, with HTTP
    500 "Failed to index <filename>." when that call returns (its flag is
    not looked at) and with that call's exception otherwise. *)
Theorem upload_record_follows_indexing f w fid ok :
  Py.contains allowed_extensions (file_extension f) = true ->
  let r := upload_and_index_document env f w in
  In (EvIndexDocumentToChroma (temp_file_path f) fid (Return ok)) (trace r) ->
  let inserted := insert_document_record env (filename f) (db w) in
  fst inserted = Return fid /\
  if ok then
    trace r = [EvInsertDocumentRecord (filename f) (Return fid);
               EvIndexDocumentToChroma (temp_file_path f) fid (Return true)] /\
    db (world r) = snd inserted /\
    outcome r = Return (mkUploadResponse
                          ("File " +:+ filename f
                           +:+ " has been successfully uploaded and indexed.") fid)
  else
    let rollback := delete_document_record env fid (snd inserted) in
    trace r = [EvInsertDocumentRecord (filename f) (Return fid);
               EvIndexDocumentToChroma (temp_file_path f) fid (Return false);
               EvDeleteDocumentRecord fid (fst rollback)] /\
    db (world r) = snd rollback /\
    outcome r = match fst rollback with
                | Return _ => Raise (HTTPException 500
                                       ("Failed to index " +:+ filename f +:+ "."))
                | Raise e => Raise e
                end.
Proof.
  intros Hok r Hin inserted.
  destruct (upload_allowed_result f w Hok) as (w' & Hdb & _ & Hres).
  cbv zeta in Hres. fold r in Hres. destruct Hres as (Ht & Hd & Hout).
  pose proof (store_and_index_run f w') as Hbody. cbv zeta in Hbody.
  rewrite Hdb in Hbody. fold inserted in Hbody.
  rewrite Ht in Hin. rewrite Ht, Hd.
  destruct Hbody as [(Hnil & _)|[(e & _ & Hone)|(fid' & ires & Hins & Hfile & Hcase)]].
  - rewrite Hnil in Hin. destruct Hin.
  - rewrite Hone in Hin. destruct Hin as [Hin|[]]. discriminate Hin.
  - rewrite (Hout _ Hfile). clear Hout.
    destruct ires as [[|]|e]; cbv zeta in Hcase; destruct Hcase as (Htr & Hdbr & Hor);
      rewrite Htr in Hin; cbn [In] in Hin;
      repeat (destruct Hin as [Hin|Hin]; [try discriminate Hin|]); try contradiction;
      injection Hin as <- <-; (split; [exact Hins|]);
      cbv zeta; rewrite Htr, Hdbr, Hor; repeat split.
Qed.

(** C4.  A delete request first calls [delete_doc_from_chroma]; only when
    that returns [True] is [delete_document_record] called, and then the
    relational store is as that call left it.  In every other case (the
    store deletion returned [False] or raised) the store deletion is the
    only call and the relational store is unchanged. *)
Theorem delete_document_store_first request w :
  let r := delete_document env request w in
  let fid := file_id request in
  let store := delete_doc_from_chroma env fid (chroma w) in
  chroma (world r) = snd store /\
  match fst store with
  | Return true =>
      let record := delete_document_record env fid (db w) in
      trace r = [EvDeleteDocFromChroma fid (Return true);
                 EvDeleteDocumentRecord fid (fst record)] /\
      db (world r) = snd record
  | res =>
      trace r = [EvDeleteDocFromChroma fid res] /\ db (world r) = db w
  end.
Proof.
  intros r fid store. subst r store fid.
  unfold delete_document, bind, call_chroma, call_db.
  destruct (delete_doc_from_chroma env (file_id request) (chroma w)) as [[[|]|e] c1];
    cbn [outcome world trace app fst snd db chroma set_chroma set_db];
    try (split; [reflexivity|split; reflexivity]).
  cbv zeta.
  destruct (delete_document_record env (file_id request) (db w)) as [[[|]|e] d1];
    cbn [outcome world trace app fst snd db chroma set_chroma set_db ret];
    repeat split.
Qed.

(** C9, as amended.  When the store deletion reports its result as a flag,
    and so does the record deletion if it is reached, the delete endpoint
    returns normally (HTTP 200): the [message] body when both flags are
    [True], an [error] body naming the database when only the store deletion
    succeeded, and an [error] body naming Chroma when the store deletion
    failed.  A deletion that raises is not covered: its exception reaches
    the caller. *)
Theorem delete_document_reports_in_band request w ok ok' :
  let fid := file_id request in
  fst (delete_doc_from_chroma env fid (chroma w)) = Return ok ->
  (ok = true -> fst (delete_document_record env fid (db w)) = Return ok') ->
  let r := delete_document env request w in
  http_status (outcome r) = 200 /\
  outcome r =
  Return (if ok then
            if ok' then
              DeleteMessage ("Successfully deleted document with file_id "
                             +:+ pretty fid +:+ " from the system.")
            else
              DeleteError ("Deleted from Chroma but failed to delete document with file_id "
                           +:+ pretty fid +:+ " from the database.")
          else
            DeleteError ("Failed to delete document with file_id "
                         +:+ pretty fid +:+ " from Chroma.")).
Proof.
  intros fid Hstore Hrecord r. subst r fid.
  unfold delete_document, bind, call_chroma, call_db.
  destruct (delete_doc_from_chroma env (file_id request) (chroma w)) as [res c1].
  cbn [fst] in Hstore. subst res.
  cbn [outcome world trace app fst snd db chroma set_chroma set_db].
  destruct ok.
  - specialize (Hrecord eq_refl). cbv beta zeta. cbn [db set_chroma].
    destruct (delete_document_record env (file_id request) (db w)) as [res d1].
    cbn [fst] in Hrecord. subst res.
    cbn [outcome world trace app fst snd db chroma set_chroma set_db].
    destruct ok'; split; reflexivity.
  - split; reflexivity.
Qed.
End DocumentClaims.


(** ** The stores of the specification: what a deletion does *)

(** A record deletion that reports success has removed the record. *)
Lemma spec_delete_document_record_effective fid d :
  fst (SpecStores.delete_document_record fid d) = Return true ->
  SpecStores.has_document_record fid (snd (SpecStores.delete_document_record fid d)) = false.
Proof.
  unfold SpecStores.delete_document_record, SpecStores.db_step, SpecStores.has_document_record.
  destruct (SpecStores.next_outage (db_outages d)) as [[|] rest];
    cbn [fst snd documents]; [discriminate|]. intros _.
  induction (documents d) as [|r l IH]; [reflexivity|].
  cbn [List.filter]. destruct (doc_id r =? fid) eqn:Hid; cbn [negb]; [exact IH|].
  cbn [existsb]. rewrite Hid, IH. reflexivity.
Qed.

(** A record deletion that reports failure has left the table alone. *)
Lemma spec_delete_document_record_failed fid d :
  fst (SpecStores.delete_document_record fid d) = Return false ->
  documents (snd (SpecStores.delete_document_record fid d)) = documents d.
Proof.
  unfold SpecStores.delete_document_record, SpecStores.db_step.
  destruct (SpecStores.next_outage (db_outages d)) as [[|] rest];
    cbn [fst snd documents]; [reflexivity|discriminate].
Qed.

(** Deleting a file the vector store holds no chunk of reports failure. *)
Lemma spec_delete_unknown_from_chroma fid c :
  existsb (fun ch => fst ch =? fid) (chunks c) = false ->
  fst (SpecStores.delete_doc_from_chroma fid c) = Return false.
Proof.
  intros Hnone. unfold SpecStores.delete_doc_from_chroma, SpecStores.chroma_step.
  destruct (SpecStores.next_outage (chroma_outages c)) as [[|] rest];
    cbn [fst snd chunks]; [reflexivity|]. rewrite Hnone. reflexivity.
Qed.

(** The stores of the specification never raise on a deletion, which is
    what the in-band reporting of the delete endpoint relies on. *)
Lemma spec_deletions_return fid d c :
  (exists ok, fst (SpecStores.delete_document_record fid d) = Return ok) /\
  (exists ok, fst (SpecStores.delete_doc_from_chroma fid c) = Return ok).
Proof.
  unfold SpecStores.delete_document_record, SpecStores.delete_doc_from_chroma,
    SpecStores.db_step, SpecStores.chroma_step.
  destruct (SpecStores.next_outage (db_outages d)) as [[|] rest];
    destruct (SpecStores.next_outage (chroma_outages c)) as [[|] rest'];
    try destruct (existsb _ _); cbn [fst]; split; eexists; reflexivity.
Qed.

(** [get_rag_chain] itself would have built a chain for the model that the
    chat handler refuses to try. *)
Example get_rag_chain_pro : get_rag_chain "gemini-2.0-pro" = mkRagChain "gemini-2.0-pro".
Proof. reflexivity. Qed.

Example get_rag_chain_unknown : get_rag_chain "gpt-4o" = mkRagChain "gemini-2.0-flash".
Proof. reflexivity. Qed.

(** The extension check is case-insensitive and looks at the last extension
    of the last path component only. *)
Example file_extension_samples :
  map (fun n => file_extension (mkUploadFile n ""))
      ["report.pdf"; "REPORT.PDF"; "a.tar.Html"; ".pdf"; "dir.pdf/readme"; "notes.txt"]
  = [".pdf"; ".pdf"; ".html"; ""; ""; ".txt"].
Proof. reflexivity. Qed.

(** ** The claims at work on sample requests *)

(** C1, the claim as stated fails: indexing returned [False], the rollback
    deletion failed in its turn, the request failed with HTTP 500 and the
    record of the upload is still in the table. *)
Lemma upload_rollback_can_leave_record :
  Py.contains allowed_extensions (file_extension Samples.report_pdf) = true /\
  In (EvIndexDocumentToChroma (temp_file_path Samples.report_pdf) 1 (Return false))
     (trace (upload_and_index_document SpecStores.env Samples.report_pdf
                                       Samples.rollback_down_world)) /\
  http_status (outcome (upload_and_index_document SpecStores.env Samples.report_pdf
                                                  Samples.rollback_down_world)) = 500 /\
  SpecStores.has_document_record 1
    (db (world (upload_and_index_document SpecStores.env Samples.report_pdf
                                          Samples.rollback_down_world))) = true.
Proof.
  split; [reflexivity|]. split; [vm_compute; right; left; reflexivity|].
  split; vm_compute; reflexivity.
Qed.

(** C1 as amended, on an upload whose indexing fails and whose rollback
    succeeds: the record is gone and the request fails with HTTP 500. *)
Lemma upload_record_follows_indexing_witness :
  Py.contains allowed_extensions (file_extension Samples.report_pdf) = true /\
  In (EvIndexDocumentToChroma (temp_file_path Samples.report_pdf) 1 (Return false))
     (trace (upload_and_index_document SpecStores.env Samples.report_pdf
                                       Samples.indexing_down_world)) /\
  fst (insert_document_record SpecStores.env "report.pdf"
                              (db Samples.indexing_down_world)) = Return 1 /\
  trace (upload_and_index_document SpecStores.env Samples.report_pdf
                                   Samples.indexing_down_world)
  = [EvInsertDocumentRecord "report.pdf" (Return 1);
     EvIndexDocumentToChroma "data/documents/temp_report.pdf" 1 (Return false);
     EvDeleteDocumentRecord 1 (Return true)] /\
  db (world (upload_and_index_document SpecStores.env Samples.report_pdf
                                       Samples.indexing_down_world))
  = mkDb [] [] 1 [] /\
  outcome (upload_and_index_document SpecStores.env Samples.report_pdf
                                     Samples.indexing_down_world)
  = Raise (HTTPException 500 "Failed to index report.pdf.").
Proof.
  assert (H1 : Py.contains allowed_extensions (file_extension Samples.report_pdf) = true)
    by reflexivity.
  assert (H2 : In (EvIndexDocumentToChroma (temp_file_path Samples.report_pdf) 1
                                           (Return false))
                  (trace (upload_and_index_document SpecStores.env Samples.report_pdf
                                                    Samples.indexing_down_world)))
    by (vm_compute; right; left; reflexivity).
  exact (conj H1 (conj H2
           (upload_record_follows_indexing SpecStores.env Samples.report_pdf
              Samples.indexing_down_world 1 false H1 H2))).
Defined.

(** C2, the claim as stated fails: the request asks for ["gemini-2.0-pro"],
    every candidate fails (HTTP 500), and the models that were tried are the
    supported default twice: the requested model is not among them. *)
Lemma chat_requested_model_not_attempted :
  map fst (invocations (trace (chat SpecStores.env Samples.ask_pro Samples.silent_world)))
  = ["gemini-2.0-flash"; "gemini-2.0-flash"] /\
  map fst (invocations (trace (chat SpecStores.env Samples.ask_pro Samples.silent_world)))
  <> [model Samples.ask_pro; "gemini-2.0-flash"] /\
  http_status (outcome (chat SpecStores.env Samples.ask_pro Samples.silent_world)) = 500.
Proof.
  split; [vm_compute; reflexivity|]. split; [vm_compute; discriminate|].
  vm_compute; reflexivity.
Qed.

(** C3 on a request for ["gemini-2.0-pro"] that is answered. *)
Lemma chat_response_model_is_default_witness :
  model Samples.ask_pro <> "gemini-2.0-flash" /\
  outcome (chat SpecStores.env Samples.ask_pro Samples.answering_world)
  = Return (mkQueryResponse "Refunds are accepted within 30 days." "session-1"
                            "gemini-2.0-flash") /\
  resp_model (mkQueryResponse "Refunds are accepted within 30 days." "session-1"
                              "gemini-2.0-flash") = "gemini-2.0-flash" /\
  resp_model (mkQueryResponse "Refunds are accepted within 30 days." "session-1"
                              "gemini-2.0-flash") <> model Samples.ask_pro.
Proof.
  assert (H1 : model Samples.ask_pro <> "gemini-2.0-flash") by (vm_compute; discriminate).
  assert (H2 : outcome (chat SpecStores.env Samples.ask_pro Samples.answering_world)
               = Return (mkQueryResponse "Refunds are accepted within 30 days."
                                         "session-1" "gemini-2.0-flash"))
    by (vm_compute; reflexivity).
  exact (conj H1 (conj H2
           (chat_response_model_is_default SpecStores.env Samples.ask_pro
              Samples.answering_world _ H1 H2))).
Defined.

(** C6 on a request whose history fetch raises. *)
Lemma chat_survives_history_failure_witness :
  In (EvGetChatHistory "session-1" (Raise (Exception "log store unavailable")))
     (trace (chat SpecStores.env Samples.ask_pro Samples.history_down_world)) /\
  (exists res rest,
      trace (chat SpecStores.env Samples.ask_pro Samples.history_down_world)
      = EvGetChatHistory "session-1" (Raise (Exception "log store unavailable"))
        :: EvInvoke (get_rag_chain "gemini-2.0-flash") "What is the refund policy?" [] res
        :: rest) /\
  Forall empty_history_invocation
         (trace (chat SpecStores.env Samples.ask_pro Samples.history_down_world)) /\
  outcome (chat SpecStores.env Samples.ask_pro Samples.history_down_world)
  = Return (mkQueryResponse "Refunds are accepted within 30 days." "session-1"
                            "gemini-2.0-flash").
Proof.
  assert (H1 : In (EvGetChatHistory "session-1" (Raise (Exception "log store unavailable")))
                  (trace (chat SpecStores.env Samples.ask_pro Samples.history_down_world)))
    by (vm_compute; left; reflexivity).
  pose proof (chat_survives_history_failure SpecStores.env Samples.ask_pro
                Samples.history_down_world _ _ H1) as H.
  cbv zeta in H. destruct H as (Hnext & Hall & Hsucc & _).
  split; [exact H1|]. split; [exact Hnext|]. split; [exact Hall|].
  refine (proj1 (Hsucc (get_rag_chain "gemini-2.0-flash") "What is the refund policy?" []
                       Samples.refund_answer _)).
  vm_compute. right. left. reflexivity.
Defined.

(** C7 on a request whose log insertion raises. *)
Lemma chat_survives_log_failure_witness :
  In (EvInsertApplicationLogs "session-1" "What is the refund policy?"
        "Refunds are accepted within 30 days." "gemini-2.0-flash"
        (Raise (Exception "log store unavailable")))
     (trace (chat SpecStores.env Samples.ask_pro Samples.log_down_world)) /\
  outcome (chat SpecStores.env Samples.ask_pro Samples.log_down_world)
  = Return (mkQueryResponse "Refunds are accepted within 30 days." "session-1"
                            "gemini-2.0-flash").
Proof.
  assert (H1 : In (EvInsertApplicationLogs "session-1" "What is the refund policy?"
                     "Refunds are accepted within 30 days." "gemini-2.0-flash"
                     (Raise (Exception "log store unavailable")))
                  (trace (chat SpecStores.env Samples.ask_pro Samples.log_down_world)))
    by (vm_compute; right; right; left; reflexivity).
  exact (conj H1
           (proj1 (chat_survives_log_failure SpecStores.env Samples.ask_pro
                     Samples.log_down_world _ _ _ _ _ H1))).
Defined.

(** C5 on an upload that fails after the file was written. *)
Lemma upload_removes_temp_file_witness :
  Py.contains allowed_extensions (file_extension Samples.report_pdf) = true /\
  files (world (upload_and_index_document SpecStores.env Samples.report_pdf
                                          Samples.rollback_down_world))
    !! temp_file_path Samples.report_pdf
  <> Some (File "%PDF-1.7 refund policy").
Proof.
  assert (H1 : Py.contains allowed_extensions (file_extension Samples.report_pdf) = true)
    by reflexivity.
  exact (conj H1
           (upload_removes_temp_file SpecStores.env Samples.report_pdf
              Samples.rollback_down_world _ H1)).
Defined.

(** C8 on a [.txt] upload. *)
Lemma upload_rejects_disallowed_extension_witness :
  Py.contains allowed_extensions (file_extension Samples.notes_txt) = false /\
  upload_and_index_document SpecStores.env Samples.notes_txt Samples.answering_world
  = mkResult (Raise (HTTPException 400
                       "Unsupported file type. Allowed types are: .pdf, .docx, .html"))
             Samples.answering_world [] /\
  http_status (outcome (upload_and_index_document SpecStores.env Samples.notes_txt
                                                  Samples.answering_world)) = 400.
Proof.
  assert (H1 : Py.contains allowed_extensions (file_extension Samples.notes_txt) = false)
    by reflexivity.
  exact (conj H1
           (upload_rejects_disallowed_extension SpecStores.env Samples.notes_txt
              Samples.answering_world H1)).
Defined.

(** C9 on a partial failure: chunks deleted, record deletion failed. *)
Lemma delete_document_reports_in_band_witness :
  fst (delete_doc_from_chroma SpecStores.env 7 (chroma Samples.record_delete_down_world))
  = Return true /\
  (true = true ->
   fst (delete_document_record SpecStores.env 7 (db Samples.record_delete_down_world))
   = Return false) /\
  http_status (outcome (delete_document SpecStores.env (mkDeleteFileRequest 7)
                                        Samples.record_delete_down_world)) = 200 /\
  outcome (delete_document SpecStores.env (mkDeleteFileRequest 7)
                           Samples.record_delete_down_world)
  = Return (DeleteError
              "Deleted from Chroma but failed to delete document with file_id 7 from the database.").
Proof.
  assert (H1 : fst (delete_doc_from_chroma SpecStores.env 7
                      (chroma Samples.record_delete_down_world)) = Return true)
    by reflexivity.
  assert (H2 : true = true ->
               fst (delete_document_record SpecStores.env 7
                      (db Samples.record_delete_down_world)) = Return false)
    by (intros _; reflexivity).
  exact (conj H1 (conj H2
           (delete_document_reports_in_band SpecStores.env (mkDeleteFileRequest 7)
              Samples.record_delete_down_world true false H1 H2))).
Defined.

(** C9, the claim as stated fails: the chunks of document 7 are deleted,
    the record deletion then fails by raising, and the request ends with
    HTTP 500 instead of an [error] body; the record is still in the table. *)
Lemma delete_document_raising_deletion_gives_500 :
  trace (delete_document MoreSamples.unreachable_record_env (mkDeleteFileRequest 7)
                         Samples.record_delete_down_world)
  = [EvDeleteDocFromChroma 7 (Return true);
     EvDeleteDocumentRecord 7 (Raise (Exception "log store unavailable"))] /\
  outcome (delete_document MoreSamples.unreachable_record_env (mkDeleteFileRequest 7)
                           Samples.record_delete_down_world)
  = Raise (Exception "log store unavailable") /\
  http_status (outcome (delete_document MoreSamples.unreachable_record_env
                          (mkDeleteFileRequest 7) Samples.record_delete_down_world))
  = 500 /\
  http_status (outcome (delete_document MoreSamples.unreachable_record_env
                          (mkDeleteFileRequest 7) Samples.record_delete_down_world))
  <> 200 /\
  SpecStores.has_document_record 7
    (db (world (delete_document MoreSamples.unreachable_record_env (mkDeleteFileRequest 7)
                                Samples.record_delete_down_world))) = true.
Proof. repeat split; try reflexivity. vm_compute. discriminate. Qed.

(** C4 on a file the vector store does not know: the store deletion fails,
    nothing else is called and the record stays where it was. *)
Example delete_unindexed_document_keeps_record :
  trace (delete_document SpecStores.env (mkDeleteFileRequest 7)
                         Samples.unindexed_record_world)
  = [EvDeleteDocFromChroma 7 (Return false)] /\
  documents (db (world (delete_document SpecStores.env (mkDeleteFileRequest 7)
                                        Samples.unindexed_record_world)))
  = [mkDocumentRecord 7 "report.pdf" 0].
Proof. split; reflexivity. Qed.

(** * Further properties of the handlers *)

(** ** The chat endpoint *)

Section MoreChat.
Variable env : Env.

Lemma chat_unfold q :
  chat env q =
  bind (session_id_or_new q) (fun sid =>
  bind (logging INFO ("Session ID: " +:+ sid +:+ ", User Query: " +:+ question q
                      +:+ ", Model: " +:+ model q)) (fun _ =>
  bind (fetch_chat_history env sid) (fun chat_history =>
  bind (select_model (model q)) (fun model_value =>
  chat_after_selection env q sid chat_history model_value)))).
Proof. reflexivity. Qed.

Lemma session_id_or_new_value q w :
  exists w',
    session_id_or_new q w =
    mkResult (Return (match session_id q with
                      | Some s => if Py.truthy s then s
                                  else match outcome (uuid4 w) with
                                       | Return u => u
                                       | Raise _ => ""
                                       end
                      | None => match outcome (uuid4 w) with
                                | Return u => u
                                | Raise _ => ""
                                end
                      end)) w' [].
Proof.
  unfold session_id_or_new, uuid4, ret.
  destruct (session_id q) as [s|]; [destruct (Py.truthy s)|];
    try destruct (uuids w); eexists; reflexivity.
Qed.

Lemma uuid4_returns w : exists u, outcome (uuid4 w) = Return u.
Proof. unfold uuid4. destruct (uuids w); eexists; reflexivity. Qed.

Lemma chat_first_event q w :
  exists sid w' res rest,
    session_id_or_new q w = mkResult (Return sid) w' [] /\
    trace (chat env q w) = EvGetChatHistory sid res :: rest.
Proof.
  destruct (session_id_or_new_run q w) as (sid & w1 & Hsid & _).
  exists sid, w1.
  assert (exists res rest, trace (chat env q w) = EvGetChatHistory sid res :: rest)
    as (res & rest & Htrace); [|exists res, rest; split; [exact Hsid|exact Htrace]].
  rewrite chat_unfold.
  rewrite (bind_Return _ _ _ _ _ _ Hsid).
  erewrite (bind_Return (logging _ _)); [|reflexivity].
  cbv beta.
  match goal with |- context [bind (fetch_chat_history env sid) ?k ?w2] =>
    destruct (fetch_chat_history_run env sid w2) as (hres & w3 & Hh);
    rewrite (bind_Return _ k _ _ _ _ Hh) end.
  cbn [trace app]. eexists _, _. reflexivity.
Qed.

(** X1.  A successful chat response carries the session id of the request
    when that is a non-empty string, and otherwise the identifier that
    [uuid.uuid4()] produces in the initial world. *)
Theorem chat_session_id q w resp :
  outcome (chat env q w) = Return resp ->
  match session_id q with
  | Some s =>
      if Py.truthy s then resp_session_id resp = s
      else outcome (uuid4 w) = Return (resp_session_id resp)
  | None => outcome (uuid4 w) = Return (resp_session_id resp)
  end.
Proof.
  intros Hret.
  destruct (chat_first_event q w) as (sid & w1 & res & rest & Hsid & Hfirst).
  destruct (chat_cases env q w) as (sid' & hres & _ & Hcases).
  assert (Hresp : resp_session_id resp = sid).
  { destruct Hcases as [(r1 & lres & Ht & Ho)|[(e1 & r1 & lres & Ht & Ho)|(e1 & e2 & Ht & Ho)]];
      rewrite Ho in Hret; try discriminate Hret;
      injection Hret as <-; rewrite Ht in Hfirst; injection Hfirst as -> _; reflexivity. }
  rewrite Hresp.
  destruct (session_id_or_new_value q w) as (w1' & Hval).
  rewrite Hval in Hsid. injection Hsid as Hsid _.
  destruct (uuid4_returns w) as [u Hu]. rewrite Hu in *.
  destruct (session_id q) as [s|]; [destruct (Py.truthy s)|]; congruence.
Qed.

(** X2.  Every chat request starts with exactly one history fetch, invokes
    the chain once or twice, makes exactly one log insertion call when it
    succeeds (whatever that call does) and none when it fails, and fails
    exactly when every invocation raised. *)
Theorem chat_call_budget q w :
  let r := chat env q w in
  (exists sid res rest,
      trace r = EvGetChatHistory sid res :: rest /\
      count_events is_history_fetch rest = 0%nat) /\
  (1 <= length (invocations (trace r)) <= 2)%nat /\
  count_events is_log_insertion (trace r) = (if raised (outcome r) then 0 else 1)%nat /\
  raised (outcome r) = forallb (fun i => raised (snd i)) (invocations (trace r)).
Proof.
  intros r. destruct (chat_cases env q w) as (sid & hres & _ & Hcases). fold r in Hcases.
  destruct Hcases as [(r1 & lres & Ht & Ho)|[(e1 & r1 & lres & Ht & Ho)|(e1 & e2 & Ht & Ho)]];
    rewrite Ht, Ho; (split; [eexists _, _, _; split; reflexivity|]);
    cbn; repeat split; lia.
Qed.

(** X3.  On success the last collaborator call is the one log insertion,
    and its arguments are the session id, the question, the answer and the
    model of the response that is returned. *)
Theorem chat_logs_what_it_returns q w resp :
  let r := chat env q w in
  outcome r = Return resp ->
  exists before lres,
    trace r = before ++ [EvInsertApplicationLogs (resp_session_id resp) (question q)
                           (resp_answer resp) (resp_model resp) lres] /\
    count_events is_log_insertion before = 0%nat.
Proof.
  intros r Hret. destruct (chat_cases env q w) as (sid & hres & _ & Hcases). fold r in Hcases.
  destruct Hcases as [(r1 & lres & Ht & Ho)|[(e1 & r1 & lres & Ht & Ho)|(e1 & e2 & Ht & Ho)]];
    rewrite Ho in Hret; try discriminate Hret; injection Hret as <-; rewrite Ht;
    cbn [resp_session_id resp_answer resp_model].
  - eexists [_; _], lres. split; reflexivity.
  - eexists [_; _; _], lres. split; reflexivity.
Qed.

Lemma failed_attempts_invocations input h cands : forall errs,
  invocations (failed_attempts input h cands errs) =
  zip_with (fun c e => (llm_model (get_rag_chain c), Raise e)) cands errs.
Proof.
  induction cands as [|c cands IH]; intros [|e errs]; try reflexivity.
  cbn. f_equal. apply IH.
Qed.

Lemma failed_attempts_length input h cands : forall errs,
  (length errs <= length cands)%nat ->
  length (failed_attempts input h cands errs) = length errs.
Proof.
  induction cands as [|c cands IH]; intros [|e errs] Hle; cbn in *; try reflexivity; try lia.
  f_equal. apply IH. lia.
Qed.

Lemma zip_with_models cands : forall errs : list Exn,
  (length errs <= length cands)%nat ->
  map fst (zip_with (fun c e => (llm_model (get_rag_chain c), @Raise Response e)) cands errs) =
  map (fun c => llm_model (get_rag_chain c)) (take (length errs) cands).
Proof.
  induction cands as [|c cands IH]; intros [|e errs] Hle; cbn in *; try reflexivity; try lia.
  f_equal. apply IH. lia.
Qed.

Lemma zip_with_all_raised cands : forall errs : list Exn,
  forallb (fun i : string * Outcome Response => raised (snd i))
          (zip_with (fun c e => (llm_model (get_rag_chain c), Raise e)) cands errs) = true.
Proof.
  induction cands as [|c cands IH]; intros [|e errs]; cbn; try reflexivity. apply IH.
Qed.

(** X7.  The candidate loop, for any list of candidates: it never raises;
    it invokes a prefix of the candidates in their order and makes no other
    call; if the last invocation returned, all earlier ones raised,
    [last_error] is [None], [answer] is extracted from that response and
    [model_value] is the candidate that answered; otherwise every candidate
    was tried and raised, and [answer] and [model_value] are left as they
    were. *)
Theorem for_candidates_in_order q sid h cands st w :
  let r := for_candidates env q sid h cands st w in
  let tried := invocations (trace r) in
  exists st',
    outcome r = Return st' /\
    length tried = length (trace r) /\
    map fst tried
    = map (fun c => llm_model (get_rag_chain c)) (take (length tried) cands) /\
    match last tried with
    | Some (_, Return resp) =>
        forallb (fun i => raised (snd i)) (removelast tried) = true /\
        st_last_error st' = None /\
        st_answer st' = Some (extract_answer resp) /\
        cands !! (length tried - 1)%nat = Some (st_model_value st')
    | _ =>
        forallb (fun i => raised (snd i)) tried = true /\
        length tried = length cands /\
        st_answer st' = st_answer st /\
        st_model_value st' = st_model_value st
    end.
Proof.
  intros r tried. subst tried.
  destruct (for_candidates_spec env q sid h cands st w) as [errs Hspec]. fold r in Hspec.
  destruct Hspec as [(cand & resp & Hc & Ht & Ho)|(Hl & Ht & Ho)].
  - assert (Hlen : (length errs < length cands)%nat) by (eapply lookup_lt_Some; exact Hc).
    eexists. split; [exact Ho|]. rewrite Ht.
    unfold invocations. rewrite omap_app. fold (invocations (failed_attempts (question q) h cands errs)).
    rewrite failed_attempts_invocations.
    change (omap invocation_of [EvInvoke (get_rag_chain cand) (question q) h (Return resp)])
      with [(llm_model (get_rag_chain cand), Return resp)].
    rewrite !length_app, failed_attempts_length by lia.
    rewrite length_zip_with. cbn [length].
    replace (length cands `min` length errs)%nat with (length errs) by lia.
    split; [reflexivity|].
    rewrite map_app, zip_with_models by lia. cbn [map fst].
    split.
    { replace (length errs + 1)%nat with (S (length errs)) by lia.
      rewrite (take_S_r _ _ _ Hc), map_app. reflexivity. }
    rewrite last_snoc, removelast_last, zip_with_all_raised.
    cbn [st_last_error st_answer st_model_value].
    replace (length errs + 1 - 1)%nat with (length errs) by lia.
    repeat split. exact Hc.
  - eexists. split; [exact Ho|]. rewrite Ht.
    rewrite failed_attempts_invocations.
    rewrite failed_attempts_length, length_zip_with by lia.
    replace (length cands `min` length errs)%nat with (length errs) by lia.
    split; [reflexivity|]. rewrite zip_with_models by lia.
    split; [reflexivity|].
    assert (Hall := zip_with_all_raised cands errs).
    assert (Hlast : forall m resp,
               last (zip_with (fun c e => (llm_model (get_rag_chain c), @Raise Response e))
                              cands errs) <> Some (m, Return resp)).
    { intros m resp Hlast. apply last_Some in Hlast as [l' Heq].
      rewrite Heq, forallb_app in Hall. cbn in Hall.
      rewrite andb_false_r in Hall. discriminate Hall. }
    cbn [st_last_error st_answer st_model_value].
    destruct (last _) as [[m [resp|e]]|] eqn:Hl'; [exfalso; eapply Hlast; reflexivity| |];
      repeat split; try assumption; lia.
Qed.
End MoreChat.

(** *** The answer and the chain *)

(** X8.  The answer extracted from a [dict]: a non-empty ["answer"] wins;
    when ["answer"] is missing or empty, a non-empty ["output_text"] is
    taken; when both are missing or empty, the answer is [str(response)].
    For any other object the answer is [str(response)]. *)
Theorem extract_answer_precedence a o s :
  (forall x, a = Some x -> Py.truthy x = true -> extract_answer (RespDict a o s) = x) /\
  (forall y, a = None \/ a = Some "" -> o = Some y -> Py.truthy y = true ->
             extract_answer (RespDict a o s) = y) /\
  (a = None \/ a = Some "" -> o = None \/ o = Some "" ->
   extract_answer (RespDict a o s) = s) /\
  extract_answer (RespOther s) = s.
Proof.
  repeat split.
  - intros x -> Hx. cbn. rewrite Hx. reflexivity.
  - intros y [-> | ->] -> Hy; cbn; rewrite Hy; reflexivity.
  - intros [-> | ->] [-> | ->]; reflexivity.
Qed.

(** X9.  [get_rag_chain] only ever builds a chain for a model of its
    allow-list: the requested one when it is listed, ["gemini-2.0-flash"]
    otherwise; asking again for the model it chose gives the same chain. *)
Theorem get_rag_chain_allowed model :
  Py.contains allowed_models (llm_model (get_rag_chain model)) = true /\
  llm_model (get_rag_chain model)
  = (if Py.contains allowed_models model then model else "gemini-2.0-flash") /\
  get_rag_chain (llm_model (get_rag_chain model)) = get_rag_chain model.
Proof.
  unfold get_rag_chain. cbn [llm_model].
  destruct (Py.contains allowed_models model) eqn:H.
  - rewrite H. repeat split.
  - repeat split.
Qed.

(** *** Relations that the blocks of the chat handler preserve *)

Section Respects.
Context {R : World -> World -> Prop} `{!PreOrder R}.

Lemma respects_ret {A} (a : A) : respects R (ret a).
Proof. intros w. reflexivity. Qed.

Lemma respects_raise {A} e : respects R (@raise A e).
Proof. intros w. reflexivity. Qed.

Lemma respects_bind {A B} (m : M A) (k : A -> M B) :
  respects R m -> (forall a, respects R (k a)) -> respects R (bind m k).
Proof.
  intros Hm Hk w. unfold bind. specialize (Hm w).
  destruct (outcome (m w)) as [a|e]; cbn [world]; [|exact Hm].
  etransitivity; [exact Hm|apply Hk].
Qed.

Lemma respects_try_except {A} (m : M A) h :
  respects R m -> (forall e, respects R (h e)) -> respects R (try_except m h).
Proof.
  intros Hm Hh w. unfold try_except. specialize (Hm w).
  destruct (outcome (m w)) as [a|e]; cbn [world]; [exact Hm|].
  etransitivity; [exact Hm|apply Hh].
Qed.

Lemma respects_call_db {A} (op : Db -> Outcome A * Db) ev :
  closed_under set_db R -> respects R (call_db op ev).
Proof. intros H w. unfold call_db. destruct (op (db w)). apply H. Qed.

Lemma respects_call_llm {A} (op : Llm -> Outcome A * Llm) ev :
  closed_under set_llm R -> respects R (call_llm op ev).
Proof. intros H w. unfold call_llm. destruct (op (llm w)). apply H. Qed.

Variable env : Env.
Hypothesis R_logging : forall lvl msg, respects R (logging lvl msg).

Lemma respects_for_candidates q sid h cands :
  closed_under set_llm R ->
  forall st, respects R (for_candidates env q sid h cands st).
Proof.
  intros Hllm. induction cands as [|c rest IH]; intros st; cbn [for_candidates].
  - apply respects_ret.
  - apply respects_bind.
    + apply respects_try_except.
      * apply respects_bind; [|intros; apply respects_ret].
        unfold attempt. apply respects_bind.
        -- intros w. unfold rag_chain_invoke. apply respects_call_llm, Hllm.
        -- intros response. apply respects_bind; [apply R_logging|intros; apply respects_ret].
      * intros e. apply respects_bind; [apply R_logging|intros; apply respects_ret].
    + intros [[|] st']; cbn [fst snd]; [apply respects_ret|apply IH].
Qed.

Lemma respects_chat_after_selection q sid h mv :
  closed_under set_db R -> closed_under set_llm R ->
  respects R (chat_after_selection env q sid h mv).
Proof.
  intros Hdb Hllm. unfold chat_after_selection.
  apply respects_bind; [apply respects_for_candidates, Hllm|].
  intros [[e|] [a|] m]; cbn [st_last_error st_answer st_model_value].
  1,2,4: apply respects_bind; [apply R_logging|intros; apply respects_raise].
  apply respects_bind.
  - unfold persist_chat_log. apply respects_try_except.
    + apply respects_call_db, Hdb.
    + intros e. apply R_logging.
  - intros _. apply respects_bind; [apply R_logging|intros; apply respects_ret].
Qed.

Lemma respects_select_model requested : respects R (select_model requested).
Proof.
  unfold select_model. destruct (negb _).
  - apply respects_bind; [apply R_logging|intros; apply respects_ret].
  - apply respects_ret.
Qed.

End Respects.

#[local] Instance log_extended_preorder : PreOrder log_extended.
Proof.
  split.
  - intros w. exists []. symmetry. apply app_nil_r.
  - intros w1 w2 w3 [m1 H1] [m2 H2]. exists (m1 ++ m2). rewrite H2, H1, app_assoc. reflexivity.
Qed.

Lemma logging_extends_log lvl msg : respects log_extended (logging lvl msg).
Proof. intros w. exists [(lvl, msg)]. reflexivity. Qed.

Lemma log_extended_closed :
  closed_under set_db log_extended /\ closed_under set_llm log_extended /\
  closed_under set_uuids log_extended /\ closed_under set_chroma log_extended /\
  closed_under set_files log_extended.
Proof. repeat split; intros x w; exists []; symmetry; apply app_nil_r. Qed.

Section MoreChatFrames.
Variable env : Env.

(** X6.  A request for a model other than ["gemini-2.0-flash"] leaves the
    warning of line 41, naming the requested model, in the application
    log. *)
Theorem chat_warns_about_unsupported_model q w :
  model q <> "gemini-2.0-flash" ->
  In (WARNING, "Unsupported model '" +:+ model q
               +:+ "' requested. Falling back to 'gemini-2.0-flash'.")
     (app_log (world (chat env q w))).
Proof.
  intros Hne. rewrite chat_unfold.
  destruct (session_id_or_new_run q w) as (sid & w1 & Hsid & _).
  rewrite (bind_Return _ _ _ _ _ _ Hsid).
  erewrite (bind_Return (logging _ _)); [|reflexivity].
  cbv beta.
  match goal with |- context [bind (fetch_chat_history env sid) ?k ?w2] =>
    destruct (fetch_chat_history_run env sid w2) as (hres & w3 & Hh);
    rewrite (bind_Return _ k _ _ _ _ Hh) end.
  cbv beta.
  assert (Hsel : select_model (model q) w3 =
                 mkResult (Return "gemini-2.0-flash")
                   (set_app_log (app_log w3 ++
                      [(WARNING, "Unsupported model '" +:+ model q
                                 +:+ "' requested. Falling back to 'gemini-2.0-flash'.")]) w3)
                   []).
  { unfold select_model. destruct (String.eqb_spec (model q) "gemini-2.0-flash") as [Heq|_];
      [contradiction|reflexivity]. }
  rewrite (bind_Return _ _ _ _ _ _ Hsel). cbn [world].
  match goal with |- context [chat_after_selection env q sid ?h ?mv ?w4] =>
    destruct (respects_chat_after_selection (R := log_extended) env logging_extends_log
                q sid h mv (proj1 log_extended_closed)
                (proj1 (proj2 log_extended_closed)) w4) as [more Hmore]
  end.
  rewrite Hmore. cbn [app_log set_app_log].
  apply in_or_app. left. apply in_or_app. right. left. reflexivity.
Qed.
End MoreChatFrames.

(** *** The document endpoints and the startup hook *)

Lemma same_projection_preorder {X} (f : World -> X) : PreOrder (fun w w' => f w' = f w).
Proof. split; [intros w; reflexivity|intros w1 w2 w3 H1 H2; congruence]. Qed.

Section MoreDocuments.
Variable env : Env.

(** X13.  When indexing raises instead of returning a flag, the exception
    reaches the caller, no rollback is attempted and the relational store is
    left as [insert_document_record] left it. *)
Theorem upload_does_not_roll_back_when_indexing_raises f w fid e :
  Py.contains allowed_extensions (file_extension f) = true ->
  let r := upload_and_index_document env f w in
  In (EvIndexDocumentToChroma (temp_file_path f) fid (Raise e)) (trace r) ->
  let inserted := insert_document_record env (filename f) (db w) in
  fst inserted = Return fid /\
  trace r = [EvInsertDocumentRecord (filename f) (Return fid);
             EvIndexDocumentToChroma (temp_file_path f) fid (Raise e)] /\
  db (world r) = snd inserted /\
  outcome r = Raise e.
Proof.
  intros Hok r Hin inserted.
  destruct (upload_allowed_result env f w Hok) as (w' & Hdb & _ & Hres).
  cbv zeta in Hres. fold r in Hres. destruct Hres as (Ht & Hd & Hout).
  pose proof (store_and_index_run env f w') as Hbody. cbv zeta in Hbody.
  rewrite Hdb in Hbody. fold inserted in Hbody.
  rewrite Ht in Hin. rewrite Ht, Hd.
  destruct Hbody as [(Hnil & _)|[(e' & _ & Hone)|(fid' & ires & Hins & Hfile & Hcase)]].
  - rewrite Hnil in Hin. destruct Hin.
  - rewrite Hone in Hin. destruct Hin as [Hin|[]]. discriminate Hin.
  - rewrite (Hout _ Hfile). clear Hout.
    destruct ires as [[|]|e'']; cbv zeta in Hcase; destruct Hcase as (Htr & Hdbr & Hor);
      rewrite Htr in Hin; cbn [In] in Hin;
      repeat (destruct Hin as [Hin|Hin]; [try discriminate Hin|]); try contradiction.
    injection Hin as <- <-. rewrite Htr, Hdbr, Hor. repeat split. exact Hins.
Qed.

(** X15.  An exception raised by either deletion is the last event of a
    delete request and reaches the caller unchanged: it is not turned into an
    [error] body. *)
Theorem delete_document_propagates_exceptions request w e :
  let r := delete_document env request w in
  let fid := file_id request in
  In (EvDeleteDocFromChroma fid (Raise e)) (trace r) \/
  In (EvDeleteDocumentRecord fid (Raise e)) (trace r) ->
  outcome r = Raise e /\
  (exists before, trace r = before ++ [EvDeleteDocFromChroma fid (Raise e)] \/
                  trace r = before ++ [EvDeleteDocumentRecord fid (Raise e)]).
Proof.
  intros r fid. subst r fid.
  unfold delete_document, bind, call_chroma, call_db.
  destruct (delete_doc_from_chroma env (file_id request) (chroma w)) as [[[|]|e1] c1];
    cbn [outcome world trace app fst snd db chroma set_chroma set_db ret].
  - cbv beta zeta. cbn [db set_chroma].
    destruct (delete_document_record env (file_id request) (db w)) as [[[|]|e2] d1];
      cbn [outcome world trace app fst snd db chroma set_chroma set_db ret In];
      intros [[H|[H|[]]]|[H|[H|[]]]]; try discriminate H.
    injection H as <-. split; [reflexivity|]. eexists [_]. right. reflexivity.
  - cbn [In]. intros [[H|[]]|[H|[]]]; discriminate H.
  - cbn [In]. intros [[H|[]]|[H|[]]]; try discriminate H.
    injection H as <-. split; [reflexivity|]. exists []. left. reflexivity.
Qed.

(** X16.  The startup hook always returns: a failure of
    [initialize_database] is logged as one ERROR record carrying the text of
    the exception, and the relational store is left as that call left it. *)
Theorem on_startup_never_fails initialize_database w :
  let r := on_startup initialize_database w in
  let init := initialize_database (db w) in
  outcome r = Return tt /\
  db (world r) = snd init /\
  app_log (world r)
  = app_log w ++ match fst init with
                 | Return _ => []
                 | Raise e => [(ERROR, "Database initialization failed on startup: "
                                        +:+ str_exn e)]
                 end.
Proof.
  intros r init. subst r init. unfold on_startup, try_except, logging.
  destruct (initialize_database (db w)) as [[[]|e] d];
    cbn [outcome world trace fst snd db app_log set_db set_app_log];
    rewrite ?app_nil_r; repeat split.
Qed.
End MoreDocuments.

(** *** The extension check *)

Lemma rfind_from_absent c s : forall i found,
  (forall n, String.get n s <> Some c) -> Py.rfind_from c s i found = found.
Proof.
  induction s as [|a s IH]; intros i found Hno; [reflexivity|].
  cbn [Py.rfind_from]. destruct (Ascii.eqb_spec a c) as [->|_].
  - exfalso. apply (Hno 0%nat). reflexivity.
  - apply IH. intros n. exact (Hno (S n)).
Qed.

Lemma rfind_from_lower_bound c s : forall i found,
  -1 <= found -> 0 <= i -> -1 <= Py.rfind_from c s i found.
Proof.
  induction s as [|a s IH]; intros i found Hf Hi; [exact Hf|].
  cbn [Py.rfind_from]. apply IH; [destruct (Ascii.eqb a c)|]; lia.
Qed.

Lemma substring_whole s : forall m,
  (String.length s <= m)%nat -> String.substring 0 m s = s.
Proof.
  induction s as [|a s IH]; intros [|m] Hm; cbn in *; try reflexivity; try lia.
  f_equal. apply IH. lia.
Qed.

Lemma append_cons a x y : String a x +:+ y = String a (x +:+ y).
Proof. reflexivity. Qed.

Lemma substring_split s : forall n m,
  (String.length s <= m)%nat ->
  String.substring 0 n s +:+ String.substring n m s = s.
Proof.
  induction s as [|a s IH]; intros [|n] m Hm.
  - destruct m; reflexivity.
  - reflexivity.
  - change (String.substring 0 0 (String a s) +:+ String.substring 0 m (String a s))
      with (String.substring 0 m (String a s)).
    apply substring_whole, Hm.
  - cbn [String.substring]. rewrite append_cons. f_equal. apply IH. cbn in Hm. lia.
Qed.

Lemma append_empty_r s : s +:+ "" = s.
Proof. induction s as [|a s IH]; [reflexivity|rewrite append_cons; f_equal; exact IH]. Qed.

Lemma splitext_join p : fst (Py.splitext p) +:+ snd (Py.splitext p) = p.
Proof.
  unfold Py.splitext.
  set (sepIndex := Py.rfind p "/"%char). set (dotIndex := Py.rfind p "."%char).
  assert (Hsep : -1 <= sepIndex) by (apply rfind_from_lower_bound; lia).
  destruct (dotIndex >? sepIndex) eqn:Hgt; [|apply append_empty_r].
  assert (Hdot : 0 <= dotIndex) by lia.
  generalize (Z.to_nat (dotIndex - (sepIndex + 1))) as fuel.
  generalize (sepIndex + 1) as i. intros i fuel. revert i.
  induction fuel as [|fuel IH]; intros i;
    cbn [Py.splitext_scan]; [apply append_empty_r|].
  destruct (i <? dotIndex); [|apply append_empty_r].
  destruct (negb _); [|apply IH].
  cbn [fst snd]. unfold Py.slice_to, Py.slice_from, Py.slice.
  rewrite Z.sub_0_r. change (Z.to_nat 0) with 0%nat.
  apply substring_split. lia.
Qed.

Section ExtensionCheck.
Variable env : Env.

(** X17.  An upload whose file name contains no ["."] is rejected with
    HTTP 400, with the world unchanged and no collaborator called. *)
Theorem upload_rejects_names_without_a_dot f w :
  (forall n, String.get n (filename f) <> Some "."%char) ->
  upload_and_index_document env f w =
  mkResult (Raise (HTTPException 400
                     "Unsupported file type. Allowed types are: .pdf, .docx, .html"))
           w [].
Proof.
  intros Hno.
  assert (Hext : file_extension f = "").
  { assert (Hdot : Py.rfind (filename f) "."%char = -1)
      by (apply rfind_from_absent, Hno).
    assert (-1 <= Py.rfind (filename f) "/"%char) by (apply rfind_from_lower_bound; lia).
    unfold file_extension, Py.splitext. rewrite Hdot.
    destruct (-1 >? Py.rfind (filename f) "/"%char) eqn:Hgt; [lia|reflexivity]. }
  unfold upload_and_index_document. rewrite Hext. reflexivity.
Qed.

(** X18.  The file name of every upload that succeeds ends with a suffix
    whose lower-case form is [.pdf], [.docx] or [.html]. *)
Theorem accepted_upload_name_ends_with_allowed_extension f w resp :
  outcome (upload_and_index_document env f w) = Return resp ->
  exists root ext,
    filename f = root +:+ ext /\
    Py.contains allowed_extensions (Py.lower ext) = true.
Proof.
  intros Hret. exists (fst (Py.splitext (filename f))), (snd (Py.splitext (filename f))).
  split; [symmetry; apply splitext_join|].
  unfold upload_and_index_document in Hret. fold (file_extension f).
  destruct (Py.contains allowed_extensions (file_extension f)); [reflexivity|].
  discriminate Hret.
Qed.
End ExtensionCheck.

Lemma lower_ascii_idempotent a : Py.lower_ascii (Py.lower_ascii a) = Py.lower_ascii a.
Proof. destruct a as [[] [] [] [] [] [] [] []]; reflexivity. Qed.

Lemma lower_ascii_dot a : Ascii.eqb (Py.lower_ascii a) "." = Ascii.eqb a ".".
Proof. destruct a as [[] [] [] [] [] [] [] []]; reflexivity. Qed.

Lemma lower_ascii_slash a : Ascii.eqb (Py.lower_ascii a) "/" = Ascii.eqb a "/".
Proof. destruct a as [[] [] [] [] [] [] [] []]; reflexivity. Qed.

Lemma lower_idempotent s : Py.lower (Py.lower s) = Py.lower s.
Proof.
  induction s as [|a s IH]; cbn [Py.lower]; [reflexivity|].
  rewrite lower_ascii_idempotent, IH. reflexivity.
Qed.

Lemma lower_length s : String.length (Py.lower s) = String.length s.
Proof. induction s as [|a s IH]; cbn; [reflexivity|f_equal; exact IH]. Qed.

Lemma lower_substring s : forall n m,
  String.substring n m (Py.lower s) = Py.lower (String.substring n m s).
Proof.
  induction s as [|a s IH]; intros [|n] [|m]; cbn; try reflexivity.
  - f_equal. apply IH.
  - apply IH.
  - apply IH.
Qed.

Lemma lower_rfind_from c s :
  (forall a, Ascii.eqb (Py.lower_ascii a) c = Ascii.eqb a c) ->
  forall i found, Py.rfind_from c (Py.lower s) i found = Py.rfind_from c s i found.
Proof.
  intros Hc. induction s as [|a s IH]; intros i found; cbn; [reflexivity|].
  rewrite Hc. apply IH.
Qed.

Lemma lower_is_dot s : String.eqb (Py.lower s) "." = String.eqb s ".".
Proof.
  destruct s as [|a [|b s]]; cbn; try reflexivity; rewrite lower_ascii_dot; reflexivity.
Qed.

Lemma lower_splitext_scan fuel p : forall i d,
  Py.splitext_scan fuel (Py.lower p) i d =
  match Py.splitext_scan fuel p i d with
  | Some (root, ext) => Some (Py.lower root, Py.lower ext)
  | None => None
  end.
Proof.
  induction fuel as [|fuel IH]; intros i d; cbn [Py.splitext_scan]; [reflexivity|].
  destruct (i <? d); [|reflexivity].
  unfold Py.slice_to, Py.slice_from, Py.slice.
  rewrite !lower_substring, lower_is_dot, lower_length.
  destruct (negb _); [reflexivity|apply IH].
Qed.

Lemma lower_splitext p :
  Py.splitext (Py.lower p) = (Py.lower (fst (Py.splitext p)), Py.lower (snd (Py.splitext p))).
Proof.
  unfold Py.splitext, Py.rfind.
  rewrite !lower_rfind_from by (first [exact lower_ascii_dot|exact lower_ascii_slash]).
  destruct (_ >? _); [|reflexivity].
  rewrite lower_splitext_scan.
  destruct (Py.splitext_scan _ _ _ _) as [[root ext]|]; reflexivity.
Qed.

(** X19.  For a file name made of ASCII characters, the extension the
    check looks at does not depend on the case of the letters of the name,
    nor on the content of the file. *)
Theorem file_extension_ignores_case name data data' :
  ascii_only name = true ->
  file_extension (mkUploadFile (Py.lower name) data) = file_extension (mkUploadFile name data').
Proof.
  intros _. unfold file_extension. cbn [filename].
  rewrite lower_splitext. cbn [snd]. apply lower_idempotent.
Qed.

Section UploadInsertFailure.
Variable env : Env.

Lemma store_and_index_insert_raised f w e :
  let r := store_and_index env f w in
  In (EvInsertDocumentRecord (filename f) (Raise e)) (trace r) ->
  let inserted := insert_document_record env (filename f) (db w) in
  fst inserted = Raise e /\
  trace r = [EvInsertDocumentRecord (filename f) (Raise e)] /\
  outcome r = Raise e /\
  db (world r) = snd inserted /\
  chroma (world r) = chroma w /\
  files (world r) !! temp_file_path f = Some (File (file f)).
Proof.
  intros r.
  assert (Hr : r = store_and_index env f w) by reflexivity. clearbody r.
  unfold store_and_index, bind, write_upload, call_db, call_chroma, ret, raise in Hr.
  cbv beta zeta in Hr.
  destruct (files w !! temp_file_path f) as [[|old]|];
    try destruct (parent_is_dir (files w) (temp_file_path f));
    cbn [outcome world trace app db chroma files set_files set_db set_chroma] in Hr;
    try (subst r; intros []).
  all: destruct (insert_document_record env (filename f) (db w)) as [[fid|e'] d1];
    cbn [outcome world trace app db chroma files set_files set_db set_chroma fst snd] in Hr |- *.
  all: try (subst r; cbn [trace outcome world In files db chroma set_db set_files];
            intros [Hin|[]]; injection Hin as <-;
            rewrite lookup_insert_eq; repeat split).
  all: match type of Hr with context [index_document_to_chroma env ?p ?i ?fs ?c] =>
      destruct (index_document_to_chroma env p i fs c) as [[[|]|e''] c2] end;
    cbn [outcome world trace app db chroma files set_files set_db set_chroma fst snd] in Hr;
    try destruct (delete_document_record env fid d1) as [[b|e3] d3];
    cbn [outcome world trace app db chroma files set_files set_db set_chroma fst snd] in Hr;
    subst r; cbn [trace In]; intros Hin;
    repeat (destruct Hin as [Hin|Hin]; [discriminate Hin|]); contradiction.
Qed.

(** X14.  When [insert_document_record] raises, it is the only
    collaborator call: nothing is indexed, the vector store is unchanged and
    the exception reaches the caller. *)
Theorem upload_stops_when_record_insertion_raises f w e :
  Py.contains allowed_extensions (file_extension f) = true ->
  let r := upload_and_index_document env f w in
  In (EvInsertDocumentRecord (filename f) (Raise e)) (trace r) ->
  trace r = [EvInsertDocumentRecord (filename f) (Raise e)] /\
  outcome r = Raise e /\
  db (world r) = snd (insert_document_record env (filename f) (db w)) /\
  chroma (world r) = chroma w.
Proof.
  intros Hok r Hin.
  destruct (upload_allowed_run env f w Hok) as (w' & Hdb & Hch & Hrun).
  subst r. rewrite Hrun in *. unfold try_finally in *. cbn [trace outcome world] in *.
  destruct (remove_temp_file_run f (world (store_and_index env f w')))
    as (Ht & Hd & Hc & _ & Hout).
  cbv zeta in Ht, Hd, Hc, Hout. rewrite Ht, app_nil_r in *. rewrite Hd, Hc.
  destruct (store_and_index_insert_raised f w' e Hin) as (_ & Htr & Ho & Hdb' & Hch' & Hfile).
  rewrite (Hout _ Hfile), Htr, Ho, Hdb', Hch', Hdb, Hch. repeat split.
Qed.
End UploadInsertFailure.

Section ChatFailure.
Variable env : Env.

Lemma fetch_chat_history_db sid w :
  db (world (fetch_chat_history env sid w)) = snd (get_chat_history env sid (db w)).
Proof.
  unfold fetch_chat_history, try_except, call_db.
  destruct (get_chat_history env sid (db w)) as [[h|e] d]; reflexivity.
Qed.

Lemma chat_after_selection_failure q sid h mv w e :
  outcome (chat_after_selection env q sid h mv w) = Raise e ->
  db (world (chat_after_selection env q sid h mv w)) = db w.
Proof.
  unfold chat_after_selection.
  set (loop := for_candidates env q sid h (model_candidates mv) (mkLoopState None None mv)).
  assert (Hdb : db (world (loop w)) = db w).
  { apply (@respects_for_candidates _ (same_projection_preorder db) env);
      [intros lvl msg w'; reflexivity|intros x w'; reflexivity]. }
  destruct (for_candidates_spec env q sid h (model_candidates mv)
              (mkLoopState None None mv) w) as [errs Hspec].
  fold loop in Hspec. cbv zeta in Hspec.
  assert (exists st, outcome (loop w) = Return st) as [st Hst].
  { destruct Hspec as [(c & r & _ & _ & Ho)|(_ & _ & Ho)]; eexists; exact Ho. }
  rewrite (bind_Return _ _ _ _ _ _ (eq_trans (result_eta (loop w))
                                       (f_equal3 mkResult Hst eq_refl eq_refl))).
  cbn [outcome world].
  destruct st as [[e1|] [a|] m]; cbn [st_last_error st_answer st_model_value].
  1,2,4: intros _; exact Hdb.
  destruct (persist_chat_log_run env sid (question q) a m (world (loop w)))
    as (lres & w6 & Hp).
  rewrite (bind_Return _ _ _ _ _ _ Hp). cbn [outcome]. discriminate.
Qed.

(** X20.  A chat request that fails has persisted nothing: the relational
    store is as the history fetch left it. *)
Theorem chat_failure_persists_nothing q w e :
  let r := chat env q w in
  outcome r = Raise e ->
  exists sid res,
    In (EvGetChatHistory sid res) (trace r) /\
    db (world r) = snd (get_chat_history env sid (db w)).
Proof.
  intros r Hfail. subst r.
  destruct (chat_first_event env q w) as (sid & w1 & res & rest & Hsid & Hfirst).
  exists sid, res. split; [rewrite Hfirst; left; reflexivity|].
  assert (Hdb1 : db w1 = db w).
  { assert (H : db (world (session_id_or_new q w)) = db w).
    { unfold session_id_or_new, uuid4, ret.
      destruct (session_id q) as [s|]; [destruct (Py.truthy s)|];
        try destruct (uuids w); reflexivity. }
    rewrite Hsid in H. exact H. }
  revert Hfail. rewrite chat_unfold.
  rewrite (bind_Return _ _ _ _ _ _ Hsid).
  erewrite (bind_Return (logging _ _)); [|reflexivity].
  cbv beta.
  match goal with |- context [bind (fetch_chat_history env sid) ?k ?w2] =>
    pose proof (fetch_chat_history_db sid w2) as Hdb3;
    destruct (fetch_chat_history_run env sid w2) as (hres & w3 & Hh);
    rewrite (bind_Return _ k _ _ _ _ Hh) end.
  rewrite Hh in Hdb3. cbn [world db set_app_log] in Hdb3. rewrite Hdb1 in Hdb3.
  cbv beta.
  destruct (select_model_run (model q) w3) as (w4 & Hm).
  assert (Hdb4 : db w4 = db w3).
  { pose proof (@respects_select_model _ (same_projection_preorder db)
                  (fun lvl msg w' => eq_refl) (model q) w3) as H.
    rewrite Hm in H. exact H. }
  rewrite (bind_Return _ _ _ _ _ _ Hm). cbn [outcome world].
  intros Hfail. rewrite (chat_after_selection_failure _ _ _ _ _ _ Hfail).
  congruence.
Qed.
End ChatFailure.

(** ** The further properties on sample requests *)

(** X1 on a request that names its session. *)
Lemma chat_session_id_witness :
  outcome (chat SpecStores.env Samples.ask_pro Samples.answering_world)
  = Return (mkQueryResponse "Refunds are accepted within 30 days." "session-1"
                            "gemini-2.0-flash") /\
  resp_session_id (mkQueryResponse "Refunds are accepted within 30 days." "session-1"
                                   "gemini-2.0-flash") = "session-1".
Proof.
  assert (H1 : outcome (chat SpecStores.env Samples.ask_pro Samples.answering_world)
               = Return (mkQueryResponse "Refunds are accepted within 30 days."
                                         "session-1" "gemini-2.0-flash"))
    by (vm_compute; reflexivity).
  exact (conj H1 (chat_session_id SpecStores.env Samples.ask_pro
                    Samples.answering_world _ H1)).
Defined.

(** X3 on the same request. *)
Lemma chat_logs_what_it_returns_witness :
  outcome (chat SpecStores.env Samples.ask_pro Samples.answering_world)
  = Return (mkQueryResponse "Refunds are accepted within 30 days." "session-1"
                            "gemini-2.0-flash") /\
  exists before lres,
    trace (chat SpecStores.env Samples.ask_pro Samples.answering_world)
    = before ++ [EvInsertApplicationLogs "session-1" "What is the refund policy?"
                   "Refunds are accepted within 30 days." "gemini-2.0-flash" lres] /\
    count_events is_log_insertion before = 0%nat.
Proof.
  assert (H1 : outcome (chat SpecStores.env Samples.ask_pro Samples.answering_world)
               = Return (mkQueryResponse "Refunds are accepted within 30 days."
                                         "session-1" "gemini-2.0-flash"))
    by (vm_compute; reflexivity).
  exact (conj H1 (chat_logs_what_it_returns SpecStores.env Samples.ask_pro
                    Samples.answering_world _ H1)).
Defined.

(** X6 on a request for ["gemini-2.0-pro"]. *)
Lemma chat_warns_about_unsupported_model_witness :
  model Samples.ask_pro <> "gemini-2.0-flash" /\
  In (WARNING,
      "Unsupported model 'gemini-2.0-pro' requested. Falling back to 'gemini-2.0-flash'.")
     (app_log (world (chat SpecStores.env Samples.ask_pro Samples.silent_world))).
Proof.
  assert (H1 : model Samples.ask_pro <> "gemini-2.0-flash") by (vm_compute; discriminate).
  exact (conj H1 (chat_warns_about_unsupported_model SpecStores.env Samples.ask_pro
                    Samples.silent_world H1)).
Defined.

(** X13 with a vector store that cannot be reached: the record of the
    upload stays in the table. *)
Lemma upload_does_not_roll_back_when_indexing_raises_witness :
  Py.contains allowed_extensions (file_extension Samples.report_pdf) = true /\
  In (EvIndexDocumentToChroma (temp_file_path Samples.report_pdf) 1
        (Raise (Exception "vector store unreachable")))
     (trace (upload_and_index_document MoreSamples.unreachable_index_env
               Samples.report_pdf Samples.answering_world)) /\
  outcome (upload_and_index_document MoreSamples.unreachable_index_env
             Samples.report_pdf Samples.answering_world)
  = Raise (Exception "vector store unreachable") /\
  SpecStores.has_document_record 1
    (db (world (upload_and_index_document MoreSamples.unreachable_index_env
                  Samples.report_pdf Samples.answering_world))) = true.
Proof.
  assert (H1 : Py.contains allowed_extensions (file_extension Samples.report_pdf) = true)
    by reflexivity.
  assert (H2 : In (EvIndexDocumentToChroma (temp_file_path Samples.report_pdf) 1
                     (Raise (Exception "vector store unreachable")))
                  (trace (upload_and_index_document MoreSamples.unreachable_index_env
                            Samples.report_pdf Samples.answering_world)))
    by (vm_compute; right; left; reflexivity).
  pose proof (upload_does_not_roll_back_when_indexing_raises
                MoreSamples.unreachable_index_env Samples.report_pdf
                Samples.answering_world 1 _ H1 H2) as H.
  cbv zeta in H. destruct H as (_ & _ & _ & Hout).
  split; [exact H1|]. split; [exact H2|]. split; [exact Hout|].
  vm_compute; reflexivity.
Defined.

(** X14 with a relational store that is down. *)
Lemma upload_stops_when_record_insertion_raises_witness :
  Py.contains allowed_extensions (file_extension Samples.report_pdf) = true /\
  In (EvInsertDocumentRecord (filename Samples.report_pdf)
        (Raise (Exception "log store unavailable")))
     (trace (upload_and_index_document SpecStores.env Samples.report_pdf
                                       MoreSamples.db_down_world)) /\
  trace (upload_and_index_document SpecStores.env Samples.report_pdf
                                   MoreSamples.db_down_world)
  = [EvInsertDocumentRecord "report.pdf" (Raise (Exception "log store unavailable"))] /\
  outcome (upload_and_index_document SpecStores.env Samples.report_pdf
                                     MoreSamples.db_down_world)
  = Raise (Exception "log store unavailable").
Proof.
  assert (H1 : Py.contains allowed_extensions (file_extension Samples.report_pdf) = true)
    by reflexivity.
  assert (H2 : In (EvInsertDocumentRecord (filename Samples.report_pdf)
                     (Raise (Exception "log store unavailable")))
                  (trace (upload_and_index_document SpecStores.env Samples.report_pdf
                                                    MoreSamples.db_down_world)))
    by (vm_compute; left; reflexivity).
  pose proof (upload_stops_when_record_insertion_raises SpecStores.env Samples.report_pdf
                MoreSamples.db_down_world _ H1 H2) as H.
  cbv zeta in H. destruct H as (Ht & Ho & _).
  exact (conj H1 (conj H2 (conj Ht Ho))).
Defined.

(** X15 with a vector store that cannot be reached. *)
Lemma delete_document_propagates_exceptions_witness :
  (In (EvDeleteDocFromChroma 7 (Raise (Exception "vector store unreachable")))
      (trace (delete_document MoreSamples.unreachable_delete_env (mkDeleteFileRequest 7)
                              Samples.unindexed_record_world)) \/
   In (EvDeleteDocumentRecord 7 (Raise (Exception "vector store unreachable")))
      (trace (delete_document MoreSamples.unreachable_delete_env (mkDeleteFileRequest 7)
                              Samples.unindexed_record_world))) /\
  outcome (delete_document MoreSamples.unreachable_delete_env (mkDeleteFileRequest 7)
                           Samples.unindexed_record_world)
  = Raise (Exception "vector store unreachable") /\
  http_status (outcome (delete_document MoreSamples.unreachable_delete_env
                          (mkDeleteFileRequest 7) Samples.unindexed_record_world)) = 500.
Proof.
  assert (H1 : In (EvDeleteDocFromChroma 7 (Raise (Exception "vector store unreachable")))
                  (trace (delete_document MoreSamples.unreachable_delete_env
                            (mkDeleteFileRequest 7) Samples.unindexed_record_world)) \/
               In (EvDeleteDocumentRecord 7 (Raise (Exception "vector store unreachable")))
                  (trace (delete_document MoreSamples.unreachable_delete_env
                            (mkDeleteFileRequest 7) Samples.unindexed_record_world)))
    by (left; left; reflexivity).
  pose proof (delete_document_propagates_exceptions MoreSamples.unreachable_delete_env
                (mkDeleteFileRequest 7) Samples.unindexed_record_world _ H1) as H.
  cbv zeta in H. destruct H as (Ho & _).
  split; [exact H1|]. split; [exact Ho|]. reflexivity.
Defined.

(** X17 on a file called README. *)
Lemma upload_rejects_names_without_a_dot_witness :
  (forall n, String.get n (filename MoreSamples.readme) <> Some "."%char) /\
  upload_and_index_document SpecStores.env MoreSamples.readme Samples.answering_world
  = mkResult (Raise (HTTPException 400
                       "Unsupported file type. Allowed types are: .pdf, .docx, .html"))
             Samples.answering_world [].
Proof.
  assert (H1 : forall n, String.get n (filename MoreSamples.readme) <> Some "."%char)
    by (intros n; do 7 (destruct n as [|n]; [discriminate|]); discriminate).
  exact (conj H1 (upload_rejects_names_without_a_dot SpecStores.env MoreSamples.readme
                    Samples.answering_world H1)).
Defined.

(** X18 on an upload that succeeds. *)
Lemma accepted_upload_name_ends_with_allowed_extension_witness :
  outcome (upload_and_index_document SpecStores.env Samples.report_pdf
                                     Samples.answering_world)
  = Return (mkUploadResponse "File report.pdf has been successfully uploaded and indexed." 1)
  /\
  exists root ext,
    filename Samples.report_pdf = root +:+ ext /\
    Py.contains allowed_extensions (Py.lower ext) = true.
Proof.
  assert (H1 : outcome (upload_and_index_document SpecStores.env Samples.report_pdf
                                                  Samples.answering_world)
               = Return (mkUploadResponse
                           "File report.pdf has been successfully uploaded and indexed." 1))
    by (vm_compute; reflexivity).
  exact (conj H1 (accepted_upload_name_ends_with_allowed_extension SpecStores.env
                    Samples.report_pdf Samples.answering_world _ H1)).
Defined.

(** X20 with a generator that is down: the log table stays empty. *)
Lemma chat_failure_persists_nothing_witness :
  outcome (chat SpecStores.env Samples.ask_pro Samples.silent_world)
  = Raise (HTTPException 500 "RAG invocation failed: generation failed") /\
  exists sid res,
    In (EvGetChatHistory sid res)
       (trace (chat SpecStores.env Samples.ask_pro Samples.silent_world)) /\
    db (world (chat SpecStores.env Samples.ask_pro Samples.silent_world))
    = snd (get_chat_history SpecStores.env sid (db Samples.silent_world)).
Proof.
  assert (H1 : outcome (chat SpecStores.env Samples.ask_pro Samples.silent_world)
               = Raise (HTTPException 500 "RAG invocation failed: generation failed"))
    by (vm_compute; reflexivity).
  exact (conj H1 (chat_failure_persists_nothing SpecStores.env Samples.ask_pro
                    Samples.silent_world _ H1)).
Defined.

(** X19 on an upper-case name. *)
Lemma file_extension_ignores_case_witness :
  ascii_only "REPORT.PDF" = true /\
  file_extension (mkUploadFile (Py.lower "REPORT.PDF") "a")
  = file_extension (mkUploadFile "REPORT.PDF" "b") /\
  file_extension (mkUploadFile "REPORT.PDF" "b") = ".pdf".
Proof.
  assert (H1 : ascii_only "REPORT.PDF" = true) by reflexivity.
  exact (conj H1 (conj (file_extension_ignores_case "REPORT.PDF" "a" "b" H1) eq_refl)).
Defined.
